(** * x86 CPU control of the Jailhouse hypervisor

    A shallow embedding of [hypervisor/arch/x86/control.c]: the per-CPU
    control block, the remote operations other cores perform on it, the
    event loop [x86_handle_events] every core runs on itself, and the
    cell-level transactions that sequence the collaborator subsystems.

    How the code is modelled:
    - A remote operation is a function on the target's control block. One
      that spins ([arch_suspend_cpu], the lock) is given the activity of
      the other cores between two polls as a list of block transformers.
    - [x86_handle_events] is a step function over program points named
      after source lines, one shared-memory access per step, so that the
      writes of the remote operations can be interleaved at will.
    - The vcpu, IOMMU, PCI and IOAPIC layers are an interface; a
      transaction threads their state and logs its calls in order.

    Part I holds the definitions, Part II the theorems. *)

From stdpp Require Import base tactics option list functions gmap.
From Stdlib Require Import ZArith Lia.

Local Open Scope Z_scope.

(* ===================================================================== *)
(** * Part I: definitions                                                 *)
(* ===================================================================== *)

(** ** The per-CPU control block

    The fields of [struct per_cpu] that control.c reads or writes.
    [control_lock] is the spinlock, [true] while some core holds it. *)

Record per_cpu := mk_per_cpu {
  control_lock : bool;
  suspend_cpu : bool;
  cpu_suspended : bool;
  shutdown_cpu : bool;
  init_signaled : bool;
  wait_for_sipi : bool;
  sipi_vector : Z;
  failed : bool;
  flush_vcpu_caches : bool
}.

Definition set_control_lock (b : bool) (s : per_cpu) : per_cpu :=
  let '(mk_per_cpu _ su cs sh ini wfs vec fl fv) := s in
  mk_per_cpu b su cs sh ini wfs vec fl fv.

Definition set_suspend_cpu (b : bool) (s : per_cpu) : per_cpu :=
  let '(mk_per_cpu lk _ cs sh ini wfs vec fl fv) := s in
  mk_per_cpu lk b cs sh ini wfs vec fl fv.

Definition set_cpu_suspended (b : bool) (s : per_cpu) : per_cpu :=
  let '(mk_per_cpu lk su _ sh ini wfs vec fl fv) := s in
  mk_per_cpu lk su b sh ini wfs vec fl fv.

Definition set_shutdown_cpu (b : bool) (s : per_cpu) : per_cpu :=
  let '(mk_per_cpu lk su cs _ ini wfs vec fl fv) := s in
  mk_per_cpu lk su cs b ini wfs vec fl fv.

Definition set_init_signaled (b : bool) (s : per_cpu) : per_cpu :=
  let '(mk_per_cpu lk su cs sh _ wfs vec fl fv) := s in
  mk_per_cpu lk su cs sh b wfs vec fl fv.

Definition set_wait_for_sipi (b : bool) (s : per_cpu) : per_cpu :=
  let '(mk_per_cpu lk su cs sh ini _ vec fl fv) := s in
  mk_per_cpu lk su cs sh ini b vec fl fv.

Definition set_sipi_vector (v : Z) (s : per_cpu) : per_cpu :=
  let '(mk_per_cpu lk su cs sh ini wfs _ fl fv) := s in
  mk_per_cpu lk su cs sh ini wfs v fl fv.

Definition set_flush_vcpu_caches (b : bool) (s : per_cpu) : per_cpu :=
  let '(mk_per_cpu lk su cs sh ini wfs vec fl _) := s in
  mk_per_cpu lk su cs sh ini wfs vec fl b.

(** [failed] has no setter: control.c only reads it. *)

(** Platform constants control.c takes from headers that are not part of
    this file. [APIC_BSP_PSEUDO_SIPI] (asm/apic.h) is the startup vector
    [arch_reset_cpu] stores; everything below is parametric in it. *)
Class apic_consts := { APIC_BSP_PSEUDO_SIPI : Z }.

(** [enum x86_init_sipi] *)
Inductive x86_init_sipi := X86_INIT | X86_SIPI.

(** Calls into the local APIC driver and the vcpu layer made by the CPU
    lifecycle code, and the value handed back by [x86_handle_events]. *)
Inductive event :=
  | Ev_apic_send_nmi_ipi
  | Ev_memory_barrier
  | Ev_apic_clear
  | Ev_vcpu_exit
  | Ev_vcpu_tlb_flush
  | Ev_vcpu_park
  | Ev_return (v : Z).

(** ** Remote operations: what another core does to a target's block *)

(** [x86_enter_wait_for_sipi], lines 202-206 (control_lock held). *)
Definition x86_enter_wait_for_sipi (s : per_cpu) : per_cpu :=
  set_wait_for_sipi true (set_init_signaled false s).

(** [arch_resume_cpu], lines 148-154. *)
Definition arch_resume_cpu (s : per_cpu) : per_cpu :=
  set_suspend_cpu false s.

(** [arch_reset_cpu], lines 156-161. *)
Definition arch_reset_cpu `{apic_consts} (s : per_cpu) : per_cpu :=
  arch_resume_cpu (set_sipi_vector APIC_BSP_PSEUDO_SIPI s).

(** [arch_park_cpu], lines 163-168. *)
Definition arch_park_cpu (s : per_cpu) : per_cpu :=
  arch_resume_cpu (set_init_signaled true s).

(** The critical section of [arch_suspend_cpu], lines 135-136: the new
    block and the captured [target_suspended]. *)
Definition suspend_section (s : per_cpu) : per_cpu * bool :=
  let s1 := set_suspend_cpu true s in
  (s1, cpu_suspended s1).

(** The critical section of [x86_send_init_sipi], lines 185-193: the new
    block and [send_nmi]. *)
Definition init_sipi_section (type : x86_init_sipi) (vector : Z) (s : per_cpu)
  : per_cpu * bool :=
  match type with
  | X86_INIT =>
      if negb (wait_for_sipi s) then (set_init_signaled true s, true)
      else (s, false)
  | X86_SIPI =>
      if wait_for_sipi s then (set_sipi_vector vector s, true)
      else (s, false)
  end.

(** What the rest of the machine does to the block between two polls of
    a spinning core. *)
Definition interference := per_cpu → per_cpu.

(** [while (!cond) cpu_relax();] Every unsuccessful poll lets the other
    cores run once; [None] when the supply of foreign activity ends with
    the condition still false (the core is still spinning). *)
Fixpoint spin_until (cond : per_cpu → bool) (env : list interference)
    (s : per_cpu) : option (per_cpu * list interference) :=
  if cond s then Some (s, env)
  else match env with
       | [] => None
       | f :: env' => spin_until cond env' (f s)
       end.

(** [spin_lock(&control_lock)] and [spin_unlock(&control_lock)]. *)
Definition spin_lock (env : list interference) (s : per_cpu)
  : option (per_cpu * list interference) :=
  '(s1, env1) ← spin_until (λ s, negb (control_lock s)) env s;
  Some (set_control_lock true s1, env1).

Definition spin_unlock (s : per_cpu) : per_cpu := set_control_lock false s.

(** How a call of a remote operation stands once the supply of foreign
    activity is used up: returned with the block as the caller last saw
    it, the signals it sent and the unused foreign activity, or still
    spinning after the signals sent so far. *)
Inductive outcome :=
  | Done (s : per_cpu) (evs : list event) (env : list interference)
  | Spinning (evs : list event).

(** [arch_suspend_cpu], lines 128-146. *)
Definition arch_suspend_cpu (env : list interference) (s : per_cpu) : outcome :=
  match spin_lock env s with
  | None => Spinning []
  | Some (s1, env1) =>
      let '(s2, target_suspended) := suspend_section s1 in
      let s3 := spin_unlock s2 in
      if negb target_suspended then
        match spin_until cpu_suspended env1 s3 with
        | None => Spinning [Ev_apic_send_nmi_ipi]
        | Some (s4, env2) => Done s4 [Ev_apic_send_nmi_ipi] env2
        end
      else Done s3 [] env1
  end.

(** [arch_shutdown_cpu], lines 170-175. The barrier is the one at the
    head of [arch_resume_cpu]. *)
Definition arch_shutdown_cpu (env : list interference) (s : per_cpu) : outcome :=
  match arch_suspend_cpu env s with
  | Spinning evs => Spinning evs
  | Done s1 evs env1 =>
      let s2 := set_shutdown_cpu true s1 in
      Done (arch_resume_cpu s2) (evs ++ [Ev_memory_barrier]) env1
  end.

(** [x86_send_init_sipi], lines 177-199. *)
Definition x86_send_init_sipi (type : x86_init_sipi) (vector : Z)
    (env : list interference) (s : per_cpu) : outcome :=
  match spin_lock env s with
  | None => Spinning []
  | Some (s1, env1) =>
      let '(s2, send_nmi) := init_sipi_section type vector s1 in
      let s3 := spin_unlock s2 in
      Done s3 (if send_nmi then [Ev_apic_send_nmi_ipi] else []) env1
  end.


(** ** The event loop [x86_handle_events], lines 208-262

    The owning core runs the loop one shared-memory access at a time, so
    that the writes of other cores can fall between any two of them. A
    program point is named after the source line it is about to run. *)
Inductive hpc :=
  | Guest   (* outside x86_handle_events *)
  | H212    (* spin_lock(&cpu_data->control_lock) *)
  | H215    (* if (cpu_data->init_signaled ... *)
  | H215b   (*      ... && !cpu_data->suspend_cpu) *)
  | H204    (* cpu_data->init_signaled = false *)
  | H205    (* cpu_data->wait_for_sipi = true *)
  | H217    (* sipi_vector = -1; break *)
  | H221    (* cpu_data->cpu_suspended = true *)
  | H223    (* spin_unlock *)
  | H225    (* while (cpu_data->suspend_cpu) cpu_relax() *)
  | H228    (* if (cpu_data->shutdown_cpu) *)
  | H229    (* apic_clear(cpu_data) *)
  | H230    (* vcpu_exit(cpu_data) *)
  | H231    (* 1: hlt; jmp 1b *)
  | H234    (* spin_lock *)
  | H236    (* cpu_data->cpu_suspended = false *)
  | H238    (* if (cpu_data->sipi_vector >= 0) *)
  | H239    (* if (!cpu_data->failed) *)
  | H240    (* cpu_data->wait_for_sipi = false *)
  | H241    (* sipi_vector = cpu_data->sipi_vector *)
  | H243    (* cpu_data->sipi_vector = -1 *)
  | H245    (* while (cpu_data->init_signaled) *)
  | H247    (* if (cpu_data->flush_vcpu_caches) *)
  | H248    (* cpu_data->flush_vcpu_caches = false *)
  | H249    (* vcpu_tlb_flush() *)
  | H252    (* spin_unlock *)
  | H256    (* if (cpu_data->wait_for_sipi) *)
  | H257    (* vcpu_park(cpu_data) *)
  | H258    (* else if (sipi_vector >= 0) *)
  | H259    (* apic_clear(cpu_data) *)
  | H261.   (* return sipi_vector *)

(** The owning core: where it is, its control block, the local variable
    [sipi_vector] of the running call, and the calls made so far. *)
Record config := mk_config {
  pc : hpc;
  cb : per_cpu;
  sipi : Z;
  tr : list event
}.

Definition goto (p : hpc) (c : config) : config :=
  mk_config p (cb c) (sipi c) (tr c).
Definition store (f : per_cpu → per_cpu) (c : config) : config :=
  mk_config (pc c) (f (cb c)) (sipi c) (tr c).
Definition set_local (v : Z) (c : config) : config :=
  mk_config (pc c) (cb c) v (tr c).
Definition emit (e : event) (c : config) : config :=
  mk_config (pc c) (cb c) (sipi c) (tr c ++ [e]).

(** One step of the owning core inside [x86_handle_events]. *)
Definition x86_handle_events_step (c : config) : config :=
  let s := cb c in
  match pc c with
  | Guest => c
  | H212 => if control_lock s then c
            else goto H215 (store (set_control_lock true) c)
  | H215 => if init_signaled s then goto H215b c else goto H221 c
  | H215b => if negb (suspend_cpu s) then goto H204 c else goto H221 c
  | H204 => goto H205 (store (set_init_signaled false) c)
  | H205 => goto H217 (store (set_wait_for_sipi true) c)
  | H217 => goto H247 (set_local (-1) c)
  | H221 => goto H223 (store (set_cpu_suspended true) c)
  | H223 => goto H225 (store spin_unlock c)
  | H225 => if suspend_cpu s then c else goto H228 c
  | H228 => if shutdown_cpu s then goto H229 c else goto H234 c
  | H229 => goto H230 (emit Ev_apic_clear c)
  | H230 => goto H231 (emit Ev_vcpu_exit c)
  | H231 => c
  | H234 => if control_lock s then c
            else goto H236 (store (set_control_lock true) c)
  | H236 => goto H238 (store (set_cpu_suspended false) c)
  | H238 => if 0 <=? sipi_vector s then goto H239 c else goto H245 c
  | H239 => if negb (failed s) then goto H240 c else goto H243 c
  | H240 => goto H241 (store (set_wait_for_sipi false) c)
  | H241 => goto H243 (set_local (sipi_vector s) c)
  | H243 => goto H245 (store (set_sipi_vector (-1)) c)
  | H245 => if init_signaled s then goto H215 c else goto H247 c
  | H247 => if flush_vcpu_caches s then goto H248 c else goto H252 c
  | H248 => goto H249 (store (set_flush_vcpu_caches false) c)
  | H249 => goto H252 (emit Ev_vcpu_tlb_flush c)
  | H252 => goto H256 (store spin_unlock c)
  | H256 => if wait_for_sipi s then goto H257 c else goto H258 c
  | H257 => goto H261 (emit Ev_vcpu_park c)
  | H258 => if 0 <=? sipi c then goto H259 c else goto H261 c
  | H259 => goto H261 (emit Ev_apic_clear c)
  | H261 => goto Guest (emit (Ev_return (sipi c)) c)
  end.

(** Entering [x86_handle_events], line 210: [int sipi_vector = -1]. *)
Definition x86_handle_events_enter (c : config) : config :=
  match pc c with
  | Guest => goto H212 (set_local (-1) c)
  | _ => c
  end.

(** The single writes of the remote operations, as the target sees them.
    The two that run under the target's lock wait while it is taken. *)
Inductive remote :=
  | R_suspend_request                          (* arch_suspend_cpu 133-138 *)
  | R_resume                                   (* arch_resume_cpu 153 *)
  | R_reset_vector                             (* arch_reset_cpu 158 *)
  | R_park_signal                              (* arch_park_cpu 165 *)
  | R_shutdown_flag                            (* arch_shutdown_cpu 173 *)
  | R_init_sipi (type : x86_init_sipi) (vector : Z) (* x86_send_init_sipi 183-195 *)
  | R_flush_mark.                              (* arch_config_commit 104, 109 *)

Definition apply_remote `{apic_consts} (r : remote) (s : per_cpu) : per_cpu :=
  match r with
  | R_suspend_request =>
      if control_lock s then s else fst (suspend_section s)
  | R_resume => arch_resume_cpu s
  | R_reset_vector => set_sipi_vector APIC_BSP_PSEUDO_SIPI s
  | R_park_signal => set_init_signaled true s
  | R_shutdown_flag => set_shutdown_cpu true s
  | R_init_sipi type vector =>
      if control_lock s then s else fst (init_sipi_section type vector s)
  | R_flush_mark => set_flush_vcpu_caches true s
  end.

(** What can happen next: the owning core enters the loop, the owning core
    takes a step, or another core performs one of its writes. *)
Inductive action :=
  | A_call
  | A_step
  | A_remote (r : remote).

Definition act `{apic_consts} (c : config) (a : action) : config :=
  match a with
  | A_call => x86_handle_events_enter c
  | A_step => x86_handle_events_step c
  | A_remote r => store (apply_remote r) c
  end.

(** A schedule is run from left to right. *)
Definition run `{apic_consts} (sched : list action) (c : config) : config :=
  foldl act c sched.

(** The owning core in guest mode with control block [s]. *)
Definition in_guest (s : per_cpu) : config := mk_config Guest s (-1) [].

(** One call of [x86_handle_events] with no other core interfering: the
    entry and [n] steps of the owning core. Outside the loop a step does
    nothing, so any [n] that reaches the return will do; a core that
    spins or halts is still inside after [n] steps. *)
Definition x86_handle_events `{apic_consts} (n : nat) (c : config) : config :=
  run (A_call :: replicate n A_step) c.

(** Values returned so far, oldest first. *)
Definition returns (c : config) : list Z :=
  omap (λ e, match e with Ev_return v => Some v | _ => None end) (tr c).

(** The program points at which the core is published as suspended. *)
Definition in_wait (p : hpc) : bool :=
  match p with
  | H223 | H225 | H228 | H229 | H230 | H231 | H234 | H236 => true
  | _ => false
  end.

(** The program points of the permanent halt and the two calls before it. *)
Definition halting (p : hpc) : bool :=
  match p with
  | H229 | H230 | H231 => true
  | _ => false
  end.

(** The steps the owning core takes in a schedule. *)
Fixpoint local_steps (sched : list action) : nat :=
  match sched with
  | [] => 0
  | A_step :: rest => S (local_steps rest)
  | _ :: rest => local_steps rest
  end.

(** On the way from the shutdown test to the halt: the calls still to be
    made, and the steps that takes. *)
Definition halt_rest (p : hpc) : list event :=
  match p with
  | H228 | H229 => [Ev_apic_clear; Ev_vcpu_exit]
  | H230 => [Ev_vcpu_exit]
  | _ => []
  end.

Definition halt_dist (p : hpc) : nat :=
  match p with
  | H228 => 3
  | H229 => 2
  | H230 => 1
  | _ => 0
  end.

(** The core has read, or is about to read, a set [shutdown_cpu] at
    line 228. *)
Definition doomed (c : config) : Prop :=
  (pc c = H228 ∧ shutdown_cpu (cb c) = true) ∨ halting (pc c) = true.

(** Where a returned startup vector can come from. [sipi_recorded]: a
    SIPI sent by [x86_send_init_sipi] found the lock free and the core
    marked [wait_for_sipi], and stored [v]. [reset_issued]: some core
    ran line 158 of [arch_reset_cpu]. *)
Definition sipi_recorded `{apic_consts} (sched : list action) (c0 : config)
    (v : Z) : Prop :=
  ∃ pre post,
    sched = pre ++ A_remote (R_init_sipi X86_SIPI v) :: post ∧
    control_lock (cb (run pre c0)) = false ∧
    wait_for_sipi (cb (run pre c0)) = true.

Definition reset_issued (sched : list action) : Prop :=
  A_remote R_reset_vector ∈ sched.

Definition vector_source `{apic_consts} (sched : list action) (c0 : config)
    (v : Z) : Prop :=
  sipi_recorded sched c0 v ∨ (v = APIC_BSP_PSEUDO_SIPI ∧ reset_issued sched).

(** Every startup vector in flight has a source: the pending field, the
    local variable of the running call (which is only loaded after the
    test of [failed] at line 239), and whatever has been returned. *)
Definition vectors_traced `{apic_consts} (sched : list action) (c0 c : config)
  : Prop :=
  (0 ≤ sipi_vector (cb c) → vector_source sched c0 (sipi_vector (cb c))) ∧
  (pc c ≠ Guest → 0 ≤ sipi c →
     vector_source sched c0 (sipi c) ∧ failed (cb c) = false) ∧
  (pc c = H240 ∨ pc c = H241 → failed (cb c) = false) ∧
  (∀ v, v ∈ returns c → 0 ≤ v →
     vector_source sched c0 v ∧ failed (cb c) = false).

(** A core marked [failed] with no vector in hand: its running call has
    loaded none, and it is not between the test of [failed] and the load. *)
Definition barred (c : config) : Prop :=
  failed (cb c) = true ∧
  (pc c ≠ Guest → sipi c < 0) ∧
  pc c ≠ H240 ∧ pc c ≠ H241.

(** [wait_for_sipi] is false after every prefix of the schedule. *)
Definition never_waited `{apic_consts} (sched : list action) (c0 : config)
  : bool :=
  forallb (λ n, negb (wait_for_sipi (cb (run (take n sched) c0))))
          (seq 0 (S (length sched))).

(** ** Cells and the collaborator subsystems *)

(** The parts of [struct cell] control.c touches. [cell_id] stands for
    the address of the structure: two pointers are equal exactly when
    the ids are. *)
Record cell := mk_cell {
  cell_id : nat;
  cpu_set : gset nat;
  pm_timer_address : Z    (* comm_page.comm_region.pm_timer_address *)
}.

Definition set_pm_timer_address (a : Z) (c : cell) : cell :=
  mk_cell (cell_id c) (cpu_set c) a.

(** The vcpu, IOMMU, PCI and IOAPIC entry points called by control.c.
    Their code is elsewhere; each acts on a state [world] of its own
    subsystems, and an [int] result is the error code ([0]: success).
    [mem] is [struct jailhouse_memory]. *)
Class collaborators (world mem : Type) := {
  vcpu_cell_init : cell → world → Z * world;
  vcpu_cell_exit : cell → world → world;
  iommu_cell_init : cell → world → Z * world;
  iommu_cell_exit : cell → world → world;
  pci_cell_init : cell → world → Z * world;
  pci_cell_exit : cell → world → world;
  ioapic_cell_init : cell → world → world;
  ioapic_cell_exit : cell → world → world;
  vcpu_map_memory_region : cell → mem → world → Z * world;
  vcpu_unmap_memory_region : cell → mem → world → Z * world;
  iommu_map_memory_region : cell → mem → world → Z * world;
  iommu_unmap_memory_region : cell → mem → world → Z * world;
  vcpu_tlb_flush : world → world;
  iommu_config_commit : option cell → world → world;
  pci_config_commit : option cell → world → world;
  ioapic_config_commit : option cell → world → world
}.

(** The log of what a transaction did, in program order. *)
Inductive call (mem : Type) :=
  | C_vcpu_cell_init (c : cell)
  | C_vcpu_cell_exit (c : cell)
  | C_iommu_cell_init (c : cell)
  | C_iommu_cell_exit (c : cell)
  | C_pci_cell_init (c : cell)
  | C_pci_cell_exit (c : cell)
  | C_ioapic_cell_init (c : cell)
  | C_ioapic_cell_exit (c : cell)
  | C_vcpu_map_memory_region (c : cell) (m : mem)
  | C_vcpu_unmap_memory_region (c : cell) (m : mem)
  | C_iommu_map_memory_region (c : cell) (m : mem)
  | C_iommu_unmap_memory_region (c : cell) (m : mem)
  | C_vcpu_tlb_flush
  | C_iommu_config_commit (c : option cell)
  | C_pci_config_commit (c : option cell)
  | C_ioapic_config_commit (c : option cell)
  | C_flush_vcpu_caches (cpu : nat).   (* per_cpu(cpu)->flush_vcpu_caches = true *)

Arguments C_vcpu_cell_init {mem} c.
Arguments C_vcpu_cell_exit {mem} c.
Arguments C_iommu_cell_init {mem} c.
Arguments C_iommu_cell_exit {mem} c.
Arguments C_pci_cell_init {mem} c.
Arguments C_pci_cell_exit {mem} c.
Arguments C_ioapic_cell_init {mem} c.
Arguments C_ioapic_cell_exit {mem} c.
Arguments C_vcpu_map_memory_region {mem} c m.
Arguments C_vcpu_unmap_memory_region {mem} c m.
Arguments C_iommu_map_memory_region {mem} c m.
Arguments C_iommu_unmap_memory_region {mem} c m.
Arguments C_vcpu_tlb_flush {mem}.
Arguments C_iommu_config_commit {mem} c.
Arguments C_pci_config_commit {mem} c.
Arguments C_ioapic_config_commit {mem} c.
Arguments C_flush_vcpu_caches {mem} cpu.

(** The machine a transaction runs on: the table behind [per_cpu(cpu)],
    the state of the collaborators, and the log. *)
Record machine (world mem : Type) := mk_machine {
  percpu : nat → per_cpu;
  ext : world;
  calls : list (call mem)
}.
Arguments mk_machine {world mem} percpu ext calls.
Arguments percpu {world mem} m.
Arguments ext {world mem} m.
Arguments calls {world mem} m.

(** Transactions thread the machine through their steps. *)
Definition tx (world mem A : Type) : Type :=
  machine world mem → A * machine world mem.

Definition tx_ret {world mem A} (a : A) : tx world mem A := λ m, (a, m).

Definition tx_bind {world mem A B} (t : tx world mem A)
    (k : A → tx world mem B) : tx world mem B :=
  λ m, let '(a, m1) := t m in k a m1.

Notation "x <~ t ; k" := (tx_bind t (λ x, k))
  (at level 20, t at level 100, k at level 200).
Notation "t ;;; k" := (tx_bind t (λ _, k))
  (at level 100, k at level 200, right associativity).

(** A collaborator call with a result, and one without. *)
Definition invoke {world mem} (e : call mem) (f : world → Z * world)
  : tx world mem Z :=
  λ m, let '(r, w) := f (ext m) in
       (r, mk_machine (percpu m) w (calls m ++ [e])).

Definition notify {world mem} (e : call mem) (f : world → world)
  : tx world mem unit :=
  λ m, (tt, mk_machine (percpu m) (f (ext m)) (calls m ++ [e])).

(** [per_cpu(cpu)->flush_vcpu_caches = true] *)
Definition mark_flush {world mem} (cpu : nat) : tx world mem unit :=
  λ m, (tt, mk_machine (alter (set_flush_vcpu_caches true) cpu (percpu m))
                       (ext m) (calls m ++ [C_flush_vcpu_caches cpu])).

(** [if (err)] on an [int]. *)
Definition is_err (err : Z) : bool := negb (err =? 0).

(** [arch_cell_create], lines 33-61. [timer] is
    [system_config->platform_info.x86.pm_timer_address]. The result is
    the error code and the cell as the function leaves it. *)
Definition arch_cell_create `{collaborators world mem} (timer : Z) (c : cell)
  : tx world mem (Z * cell) :=
  err <~ invoke (C_vcpu_cell_init c) (vcpu_cell_init c) ;
  if is_err err then tx_ret (err, c) else
  err <~ invoke (C_iommu_cell_init c) (iommu_cell_init c) ;
  if is_err err then
    (* error_vm_exit *)
    notify (C_vcpu_cell_exit c) (vcpu_cell_exit c) ;;;
    tx_ret (err, c)
  else
  err <~ invoke (C_pci_cell_init c) (pci_cell_init c) ;
  if is_err err then
    (* error_iommu_exit *)
    notify (C_iommu_cell_exit c) (iommu_cell_exit c) ;;;
    notify (C_vcpu_cell_exit c) (vcpu_cell_exit c) ;;;
    tx_ret (err, c)
  else
  notify (C_ioapic_cell_init c) (ioapic_cell_init c) ;;;
  tx_ret (0, set_pm_timer_address timer c).

(** [arch_map_memory_region], lines 63-76. *)
Definition arch_map_memory_region `{collaborators world mem} (c : cell) (r : mem)
  : tx world mem Z :=
  err <~ invoke (C_vcpu_map_memory_region c r) (vcpu_map_memory_region c r) ;
  if is_err err then tx_ret err else
  err <~ invoke (C_iommu_map_memory_region c r) (iommu_map_memory_region c r) ;
  if is_err err then
    invoke (C_vcpu_unmap_memory_region c r) (vcpu_unmap_memory_region c r) ;;;
    tx_ret err
  else tx_ret err.

(** [arch_unmap_memory_region], lines 78-88. *)
Definition arch_unmap_memory_region `{collaborators world mem} (c : cell) (r : mem)
  : tx world mem Z :=
  err <~ invoke (C_iommu_unmap_memory_region c r) (iommu_unmap_memory_region c r) ;
  if is_err err then tx_ret err else
  invoke (C_vcpu_unmap_memory_region c r) (vcpu_unmap_memory_region c r).

(** [arch_cell_destroy], lines 90-96. *)
Definition arch_cell_destroy `{collaborators world mem} (c : cell)
  : tx world mem unit :=
  notify (C_ioapic_cell_exit c) (ioapic_cell_exit c) ;;;
  notify (C_pci_cell_exit c) (pci_cell_exit c) ;;;
  notify (C_iommu_cell_exit c) (iommu_cell_exit c) ;;;
  notify (C_vcpu_cell_exit c) (vcpu_cell_exit c).

(** Modelled from the spec: the iteration macro [for_each_cpu_except] of
    jailhouse/control.h is not part of control.c. The spec has it visit
    "every physical core belonging to" the set "other than" the excepted
    one; each core is visited once. *)
Definition for_each_cpu_except (set : gset nat) (exception : nat) : list nat :=
  elements (set ∖ {[exception]}).

(** The loop [for_each_cpu_except(cpu, set, current_cpu)
    per_cpu(cpu)->flush_vcpu_caches = true;] *)
Fixpoint mark_all {world mem} (cpus : list nat) : tx world mem unit :=
  match cpus with
  | [] => tx_ret tt
  | cpu :: rest => mark_flush cpu ;;; mark_all rest
  end.

(** [arch_config_commit], lines 98-116. [current_cpu] is [this_cpu_id()],
    [cell_added_removed] is [None] for a null pointer. *)
Definition arch_config_commit `{collaborators world mem} (root_cell : cell)
    (current_cpu : nat) (cell_added_removed : option cell) : tx world mem unit :=
  mark_all (for_each_cpu_except (cpu_set root_cell) current_cpu) ;;;
  match cell_added_removed with
  | Some c =>
      if bool_decide (cell_id c ≠ cell_id root_cell)
      then mark_all (for_each_cpu_except (cpu_set c) current_cpu)
      else tx_ret tt
  | None => tx_ret tt
  end ;;;
  notify C_vcpu_tlb_flush vcpu_tlb_flush ;;;
  notify (C_iommu_config_commit cell_added_removed)
         (iommu_config_commit cell_added_removed) ;;;
  notify (C_pci_config_commit cell_added_removed)
         (pci_config_commit cell_added_removed) ;;;
  notify (C_ioapic_config_commit cell_added_removed)
         (ioapic_config_commit cell_added_removed).

(** The set of cores [arch_config_commit] is meant to mark. *)
Definition commit_targets (root_cell : cell) (current_cpu : nat)
    (cell_added_removed : option cell) : gset nat :=
  (cpu_set root_cell ∖ {[current_cpu]}) ∪
  match cell_added_removed with
  | Some c => if bool_decide (cell_id c ≠ cell_id root_cell)
              then cpu_set c ∖ {[current_cpu]} else ∅
  | None => ∅
  end.

(** ** Stand-ins used to exercise the theorems on concrete inputs *)

(** Collaborators that replay a script of error codes: every call with a
    result takes the next code, the others leave the script alone. *)
Definition scripted (w : list Z) : Z * list Z := (hd 0 w, tl w).

#[export] Instance scripted_collaborators : collaborators (list Z) Z := {|
  vcpu_cell_init _ := scripted;
  vcpu_cell_exit _ w := w;
  iommu_cell_init _ := scripted;
  iommu_cell_exit _ w := w;
  pci_cell_init _ := scripted;
  pci_cell_exit _ w := w;
  ioapic_cell_init _ w := w;
  ioapic_cell_exit _ w := w;
  vcpu_map_memory_region _ _ := scripted;
  vcpu_unmap_memory_region _ _ := scripted;
  iommu_map_memory_region _ _ := scripted;
  iommu_unmap_memory_region _ _ := scripted;
  vcpu_tlb_flush w := w;
  iommu_config_commit _ w := w;
  pci_config_commit _ w := w;
  ioapic_config_commit _ w := w
|}.

(** The value of [APIC_BSP_PSEUDO_SIPI] in Jailhouse's asm/apic.h. *)
Definition apic_x86 : apic_consts := {| APIC_BSP_PSEUDO_SIPI := 0x100 |}.

(** A running core: nothing requested, nothing pending. *)
Definition idle_block : per_cpu :=
  mk_per_cpu false false false false false false (-1) false false.

(** A machine whose cores are all idle. *)
Definition idle_machine (w : list Z) : machine (list Z) Z :=
  mk_machine (λ _, idle_block) w [].

Definition cell_of (id : nat) (cpus : gset nat) : cell := mk_cell id cpus 0.

(** A core that is suspended while in guest mode, reset while it waits
    and then released: [arch_suspend_cpu] followed by [arch_reset_cpu]. *)
Definition reset_schedule : list action :=
  [A_remote R_suspend_request; A_call] ++ replicate 5 A_step ++
  [A_remote R_reset_vector; A_remote R_resume] ++ replicate 16 A_step.

(** An INIT to a running core, a call, then a SIPI with vector 7 and a
    second call. *)
Definition init_sipi_schedule : list action :=
  [A_remote (R_init_sipi X86_INIT 0); A_call] ++ replicate 16 A_step ++
  [A_remote (R_init_sipi X86_SIPI 7); A_call] ++ replicate 24 A_step.

(** ** Further notions about the event loop *)

(** The program points at which the owning core holds its own lock:
    lines 213-223 and 235-252. *)
Definition holds_lock (p : hpc) : bool :=
  match p with
  | H215 | H215b | H204 | H205 | H217 | H221 | H223
  | H236 | H238 | H239 | H240 | H241 | H243 | H245
  | H247 | H248 | H249 | H252 => true
  | _ => false
  end.

(** The way from the entry into the wait loop. *)
Definition entering (p : hpc) : bool :=
  match p with
  | H212 | H215 | H215b | H221 | H223 | H225 => true
  | _ => false
  end.

(** Steps the owning core needs at most to reach the spin of line 225. *)
Definition spin_dist (p : hpc) : nat :=
  match p with
  | H212 => 5
  | H215 => 4
  | H215b => 3
  | H221 => 2
  | H223 => 1
  | _ => 0
  end.

(** No core clears [suspend_cpu] in the schedule: line 153 is not run. *)
Definition resumes (a : action) : bool :=
  match a with
  | A_remote R_resume => true
  | _ => false
  end.

Definition no_resume (sched : list action) : Prop :=
  Forall (λ a, resumes a = false) sched.

(** The owning core takes no step and starts no call in the schedule. *)
Definition only_remote (sched : list action) : Prop :=
  Forall (λ a, match a with A_remote _ => True | _ => False end) sched.

(** No remote write is in the schedule. *)
Definition only_local (sched : list action) : Prop :=
  Forall (λ a, match a with A_remote _ => False | _ => True end) sched.

(** Calls of [vcpu_tlb_flush] made so far. *)
Definition flushes (c : config) : nat :=
  length (omap (λ e, match e with Ev_vcpu_tlb_flush => Some tt | _ => None end)
               (tr c)).

(** The program points from which the test of [flush_vcpu_caches] at line
    247 is still ahead (the halt apart, from which nothing is ahead). *)
Definition before_flush_test (p : hpc) : bool :=
  match p with
  | H248 | H249 | H252 | H256 | H257 | H258 | H259 | H261 => false
  | _ => true
  end.

(** The program points a core marked for shutdown can be at when it
    started outside the loop. *)
Definition shutdown_path (p : hpc) : bool :=
  match p with
  | H234 | H236 | H238 | H239 | H240 | H241 | H243 | H245 | H258 | H259 => false
  | _ => true
  end.

(** On that path: the points before the INIT branch has set
    [wait_for_sipi]. *)
Definition before_init_exit (p : hpc) : bool :=
  match p with
  | Guest | H212 | H215 | H215b | H204 | H205 | H221 | H223 | H225
  | H228 | H229 | H230 | H231 => true
  | _ => false
  end.

(** A core that entered the loop with [suspend_cpu] set and has not been
    resumed. *)
Definition suspended_entry (c : config) : Prop :=
  suspend_cpu (cb c) = true ∧
  control_lock (cb c) = holds_lock (pc c) ∧
  (pc c = Guest ∨ entering (pc c) = true) ∧
  (pc c = H223 ∨ pc c = H225 → cpu_suspended (cb c) = true).

(** A core marked for shutdown that started outside the loop: it has
    loaded no vector, and past the INIT branch it is waiting for a SIPI. *)
Definition marked_for_shutdown (c : config) : Prop :=
  shutdown_cpu (cb c) = true ∧
  shutdown_path (pc c) = true ∧
  (pc c ≠ Guest → sipi c = -1) ∧
  (before_init_exit (pc c) = false → wait_for_sipi (cb c) = true).

(** A flush requested before [c0] passed line 247 is still owed, or has
    been made. *)
Definition flush_owed (c0 c : config) : Prop :=
  (returns c = returns c0 ∧ (flushes c0 ≤ flushes c)%nat ∧
   ((before_flush_test (pc c) = true ∧ flush_vcpu_caches (cb c) = true) ∨
    pc c = H248 ∨ pc c = H249)) ∨
  (flushes c0 < flushes c)%nat.

(** How the end of a call hangs together: a loaded vector means the core
    is no longer waiting; [vcpu_park] and [apic_clear] are the last call
    made only right before the return they belong to ([apic_clear] also
    on the way to the halt). *)
Definition exit_consistent (c : config) : Prop :=
  (pc c ≠ Guest → pc c ≠ H217 → 0 ≤ sipi c → wait_for_sipi (cb c) = false) ∧
  (pc c = H241 → wait_for_sipi (cb c) = false) ∧
  (pc c = H257 → wait_for_sipi (cb c) = true) ∧
  (pc c = H258 ∨ pc c = H259 → wait_for_sipi (cb c) = false) ∧
  (pc c = H259 → 0 ≤ sipi c) ∧
  (last (tr c) = Some Ev_vcpu_park → pc c = H261) ∧
  (last (tr c) = Some Ev_apic_clear → pc c = H261 ∨ pc c = H230) ∧
  (pc c = H261 →
     (wait_for_sipi (cb c) = true ∧ sipi c < 0 ∧
      last (tr c) = Some Ev_vcpu_park) ∨
     (wait_for_sipi (cb c) = false ∧ 0 ≤ sipi c ∧
      last (tr c) = Some Ev_apic_clear) ∨
     (wait_for_sipi (cb c) = false ∧ sipi c < 0 ∧
      last (tr c) ≠ Some Ev_vcpu_park ∧ last (tr c) ≠ Some Ev_apic_clear)) ∧
  (pc c = Guest → ∀ t v, tr c = t ++ [Ev_return v] →
     (wait_for_sipi (cb c) = true ∧ v < 0 ∧ last t = Some Ev_vcpu_park) ∨
     (wait_for_sipi (cb c) = false ∧ 0 ≤ v ∧ last t = Some Ev_apic_clear) ∨
     (wait_for_sipi (cb c) = false ∧ v < 0 ∧
      last t ≠ Some Ev_vcpu_park ∧ last t ≠ Some Ev_apic_clear)).

(** The configuration [c] with the calls [t] made before its own. *)
Definition with_history (t : list event) (c : config) : config :=
  mk_config (pc c) (cb c) (sipi c) (t ++ tr c).

(** The configuration [c] with its record of calls emptied. *)
Definition fresh_trace (c : config) : config :=
  mk_config (pc c) (cb c) (sipi c) [].

(** ** Further notions about the transactions *)

(** The [_init] and the [_exit] calls of the four subsystems. *)
Definition is_init {mem} (e : call mem) : bool :=
  match e with
  | C_vcpu_cell_init _ | C_iommu_cell_init _
  | C_pci_cell_init _ | C_ioapic_cell_init _ => true
  | _ => false
  end.

Definition is_exit {mem} (e : call mem) : bool :=
  match e with
  | C_vcpu_cell_exit _ | C_iommu_cell_exit _
  | C_pci_cell_exit _ | C_ioapic_cell_exit _ => true
  | _ => false
  end.

Definition count_calls {mem} (f : call mem → bool) (l : list (call mem)) : nat :=
  length (List.filter f l).

(** The [_exit] call on cell [c] that takes back an [_init] call. *)
Definition teardown_for {mem} (c : cell) (e : call mem) : option (call mem) :=
  match e with
  | C_vcpu_cell_init _ => Some (C_vcpu_cell_exit c)
  | C_iommu_cell_init _ => Some (C_iommu_cell_exit c)
  | C_pci_cell_init _ => Some (C_pci_cell_exit c)
  | C_ioapic_cell_init _ => Some (C_ioapic_cell_exit c)
  | _ => None
  end.

(** The cores [arch_config_commit] visits, in the order of its two loops. *)
Definition commit_visits (root_cell : cell) (current_cpu : nat)
    (cell_added_removed : option cell) : list nat :=
  for_each_cpu_except (cpu_set root_cell) current_cpu ++
  match cell_added_removed with
  | Some c => if bool_decide (cell_id c ≠ cell_id root_cell)
              then for_each_cpu_except (cpu_set c) current_cpu else []
  | None => []
  end.

(** ** Further schedules and states to run the model on *)

(** A core that enters the loop with a suspend request standing while
    other cores park it and signal an INIT; nobody resumes it. *)
Definition suspended_schedule : list action :=
  [A_step; A_remote R_park_signal; A_step; A_step;
   A_remote (R_init_sipi X86_INIT 0); A_step; A_step; A_step].

(** [arch_shutdown_cpu] on a running core, as the target sees it. *)
Definition shutdown_schedule : list action :=
  [A_remote R_suspend_request; A_call] ++ replicate 5 A_step ++
  [A_remote R_shutdown_flag; A_remote R_resume] ++ replicate 8 A_step.

(** An INIT to a core already marked for shutdown, and its call. *)
Definition init_call_schedule : list action :=
  [A_remote (R_init_sipi X86_INIT 0); A_call] ++ replicate 16 A_step.

(** A core spinning at line 225 with vector 5 pending. *)
Definition waiting_core : config :=
  mk_config H225
    (set_sipi_vector 5 (set_cpu_suspended true (set_suspend_cpu true idle_block)))
    (-1) [].

(* ===================================================================== *)
(** * Part II: theorems                                                   *)
(* ===================================================================== *)

(** ** Basic facts about the control block *)

Lemma spin_until_cond cond env s s' env' :
  spin_until cond env s = Some (s', env') → cond s' = true.
Proof.
  revert s. induction env as [|f env IH]; intros s; simpl;
    destruct (cond s) eqn:E; try discriminate; eauto; congruence.
Qed.

Lemma spin_until_now cond env s :
  cond s = true → spin_until cond env s = Some (s, env).
Proof. intros E. destruct env; simpl; by rewrite E. Qed.

Lemma spin_lock_free env s :
  control_lock s = false →
  spin_lock env s = Some (set_control_lock true s, env).
Proof.
  intros E. unfold spin_lock. rewrite spin_until_now; [done|]. by rewrite E.
Qed.

(** The lock is awaited, then taken: the rest of a locked operation runs
    from the block [s0] in which the lock was found free. *)
Lemma spin_lock_after_wait env s s0 env0 :
  spin_until (λ s, negb (control_lock s)) env s = Some (s0, env0) →
  control_lock s0 = false ∧
  spin_lock env s = Some (set_control_lock true s0, env0).
Proof.
  intros E. split.
  - apply spin_until_cond in E. by destruct (control_lock s0).
  - unfold spin_lock. by rewrite E.
Qed.

(** ** Remote operations *)

(** C7. [x86_send_init_sipi] with kind INIT acts (sets [init_signaled])
    only when the target's [wait_for_sipi] is false, with kind SIPI acts
    (stores the vector) only when it is true; otherwise the control block
    is left as it was; the NMI is sent exactly when it acted. [s0] is the
    block in which the lock was found free. *)
Theorem x86_send_init_sipi_frame (type : x86_init_sipi) (vector : Z)
    (env env0 : list interference) (s s0 : per_cpu) :
  spin_until (λ s, negb (control_lock s)) env s = Some (s0, env0) →
  x86_send_init_sipi type vector env s =
    match type, wait_for_sipi s0 with
    | X86_INIT, false => Done (set_init_signaled true s0) [Ev_apic_send_nmi_ipi] env0
    | X86_SIPI, true => Done (set_sipi_vector vector s0) [Ev_apic_send_nmi_ipi] env0
    | _, _ => Done s0 [] env0
    end.
Proof.
  intros E. apply spin_lock_after_wait in E as [Hfree E].
  unfold x86_send_init_sipi. rewrite E.
  destruct s0 as [lk su cs sh ini wfs vec fl fv]; simpl in Hfree; subst lk.
  destruct type, wfs; reflexivity.
Qed.

Lemma x86_send_init_sipi_frame_witness :
  x86_send_init_sipi X86_SIPI 7 [] (set_wait_for_sipi true idle_block) =
    Done (set_sipi_vector 7 (set_wait_for_sipi true idle_block))
         [Ev_apic_send_nmi_ipi] [] ∧
  x86_send_init_sipi X86_SIPI 7 [] idle_block = Done idle_block [] [] ∧
  x86_send_init_sipi X86_INIT 7 [] idle_block =
    Done (set_init_signaled true idle_block) [Ev_apic_send_nmi_ipi] [].
Proof.
  split; [|split].
  - exact (x86_send_init_sipi_frame X86_SIPI 7 [] []
             (set_wait_for_sipi true idle_block) _ eq_refl).
  - exact (x86_send_init_sipi_frame X86_SIPI 7 [] [] idle_block _ eq_refl).
  - exact (x86_send_init_sipi_frame X86_INIT 7 [] [] idle_block _ eq_refl).
Defined.

(** A lock that never comes free keeps the caller spinning, nothing sent. *)
Lemma x86_send_init_sipi_blocked type vector env s :
  spin_until (λ s, negb (control_lock s)) env s = None →
  x86_send_init_sipi type vector env s = Spinning [].
Proof. intros E. unfold x86_send_init_sipi, spin_lock. by rewrite E. Qed.

(** C5. [arch_suspend_cpu] sets [suspend_cpu] under the target's lock and
    captures [cpu_suspended] there. If the target was already suspended
    it returns at once and sends nothing. Otherwise it sends the NMI
    once, and it returns exactly when a poll sees [cpu_suspended] set:
    until then it is spinning, the one NMI sent. [s0] is the block in
    which the lock was found free. *)
Theorem arch_suspend_cpu_protocol (env env0 : list interference)
    (s s0 : per_cpu) :
  spin_until (λ s, negb (control_lock s)) env s = Some (s0, env0) →
  let s1 := set_suspend_cpu true s0 in
  suspend_section (set_control_lock true s0)
    = (set_control_lock true s1, cpu_suspended s0) ∧
  (cpu_suspended s0 = true → arch_suspend_cpu env s = Done s1 [] env0) ∧
  (cpu_suspended s0 = false →
     match arch_suspend_cpu env s with
     | Done s4 evs env2 =>
         evs = [Ev_apic_send_nmi_ipi] ∧ cpu_suspended s4 = true ∧
         spin_until cpu_suspended env0 s1 = Some (s4, env2)
     | Spinning evs =>
         evs = [Ev_apic_send_nmi_ipi] ∧
         spin_until cpu_suspended env0 s1 = None
     end).
Proof.
  intros E s1. apply spin_lock_after_wait in E as [Hfree E].
  assert (Hs1 : spin_unlock (set_suspend_cpu true (set_control_lock true s0)) = s1).
  { subst s1. destruct s0; simpl in *; by subst. }
  split; [|split].
  - subst s1. by destruct s0.
  - intros Hcs. unfold arch_suspend_cpu. rewrite E. cbn [suspend_section].
    rewrite Hs1.
    replace (cpu_suspended (set_suspend_cpu true (set_control_lock true s0)))
      with true by (by destruct s0).
    done.
  - intros Hcs. unfold arch_suspend_cpu. rewrite E. cbn [suspend_section].
    rewrite Hs1.
    replace (cpu_suspended (set_suspend_cpu true (set_control_lock true s0)))
      with false by (by destruct s0).
    cbn [negb]. destruct (spin_until cpu_suspended env0 s1) as [[s4 env2]|] eqn:Hw.
    + split; [done|]. split; [|done]. by apply spin_until_cond in Hw.
    + done.
Qed.

Lemma arch_suspend_cpu_protocol_witness :
  arch_suspend_cpu [set_cpu_suspended true] (set_cpu_suspended true idle_block)
    = Done (set_suspend_cpu true (set_cpu_suspended true idle_block)) []
           [set_cpu_suspended true] ∧
  match arch_suspend_cpu [id; set_cpu_suspended true] idle_block with
  | Done s4 evs env2 => evs = [Ev_apic_send_nmi_ipi] ∧ cpu_suspended s4 = true
  | Spinning _ => False
  end.
Proof.
  split.
  - exact (proj1 (proj2 (arch_suspend_cpu_protocol [set_cpu_suspended true]
       [set_cpu_suspended true] (set_cpu_suspended true idle_block) _ eq_refl))
       eq_refl).
  - pose proof (proj2 (proj2 (arch_suspend_cpu_protocol
       [id; set_cpu_suspended true] [id; set_cpu_suspended true]
       idle_block idle_block eq_refl)) eq_refl) as W.
    destruct (arch_suspend_cpu [id; set_cpu_suspended true] idle_block).
    + destruct W as (W1 & W2 & _). by split.
    + destruct W as [_ W]. discriminate W.
Defined.

(** *** The remote operations as single writes

    The event loop below is interleaved with the remote operations one
    write at a time. These lemmas tie each write of that alphabet to the
    function it comes from. *)

Section RemoteWrites.
Context `{apic_consts}.

Lemma arch_resume_cpu_write s : arch_resume_cpu s = apply_remote R_resume s.
Proof. done. Qed.

Lemma arch_reset_cpu_writes s :
  arch_reset_cpu s = apply_remote R_resume (apply_remote R_reset_vector s).
Proof. done. Qed.

Lemma arch_park_cpu_writes s :
  arch_park_cpu s = apply_remote R_resume (apply_remote R_park_signal s).
Proof. done. Qed.

Lemma x86_send_init_sipi_write type vector env s :
  control_lock s = false →
  ∃ evs, x86_send_init_sipi type vector env s =
           Done (apply_remote (R_init_sipi type vector) s) evs env.
Proof.
  intros Hfree. unfold x86_send_init_sipi. rewrite spin_lock_free by done.
  cbn [apply_remote]. rewrite Hfree.
  destruct s as [lk su cs sh ini wfs vec fl fv]; simpl in Hfree; subst lk.
  destruct type, wfs; cbn; eauto.
Qed.

Lemma arch_suspend_cpu_write env s :
  control_lock s = false → cpu_suspended s = true →
  arch_suspend_cpu env s = Done (apply_remote R_suspend_request s) [] env.
Proof.
  intros Hfree Hcs. unfold arch_suspend_cpu. rewrite spin_lock_free by done.
  cbn [apply_remote]. rewrite Hfree.
  destruct s as [lk su cs sh ini wfs vec fl fv]; simpl in *; by subst.
Qed.

Lemma arch_shutdown_cpu_writes env s :
  control_lock s = false → cpu_suspended s = true →
  arch_shutdown_cpu env s =
    Done (apply_remote R_resume
            (apply_remote R_shutdown_flag (apply_remote R_suspend_request s)))
         [Ev_memory_barrier] env.
Proof.
  intros Hfree Hcs. unfold arch_shutdown_cpu.
  by rewrite arch_suspend_cpu_write.
Qed.

End RemoteWrites.

(** ** Cell transactions *)

Section Transactions.
Context `{collaborators world mem}.
Implicit Types (c : cell) (r : mem) (m : machine world mem).

Lemma is_err_true err : is_err err = true ↔ err ≠ 0.
Proof. unfold is_err. destruct (Z.eqb_spec err 0); cbn; intuition congruence. Qed.

Lemma is_err_false err : is_err err = false ↔ err = 0.
Proof. unfold is_err. destruct (Z.eqb_spec err 0); cbn; intuition congruence. Qed.

(** Unfolds a transaction into the calls it makes, then feeds it the
    outcome [E] of the next collaborator call. *)
Ltac tx_run :=
  unfold tx_bind, tx_ret, invoke, notify; cbn -[is_err].
Ltac tx_step E := rewrite E; cbn -[is_err].
Ltac tx_done := cbn -[is_err]; by rewrite <- ?app_assoc.
Ltac err_case Herr :=
  split; [intros Herr%is_err_true
         |intros Herr; apply is_err_false in Herr as Herr'; subst;
          rename Herr' into Herr].

(** C3. [arch_map_memory_region] maps in the vcpu layer first and in the
    IOMMU second; when the IOMMU step fails it unmaps in the vcpu layer
    and returns the IOMMU's error. [arch_unmap_memory_region] unmaps in
    the IOMMU first; when that fails it returns the error and makes no
    vcpu call at all, so the vcpu mapping is as it was. *)
Theorem map_unmap_memory_region_order c r m :
  (∀ e1 w1, vcpu_map_memory_region c r (ext m) = (e1, w1) →
     (e1 ≠ 0 →
        arch_map_memory_region c r m =
          (e1, mk_machine (percpu m) w1
                 (calls m ++ [C_vcpu_map_memory_region c r]))) ∧
     (e1 = 0 → ∀ e2 w2, iommu_map_memory_region c r w1 = (e2, w2) →
        (e2 ≠ 0 →
           arch_map_memory_region c r m =
             (e2, mk_machine (percpu m) (vcpu_unmap_memory_region c r w2).2
                    (calls m ++ [C_vcpu_map_memory_region c r;
                                 C_iommu_map_memory_region c r;
                                 C_vcpu_unmap_memory_region c r]))) ∧
        (e2 = 0 →
           arch_map_memory_region c r m =
             (0, mk_machine (percpu m) w2
                   (calls m ++ [C_vcpu_map_memory_region c r;
                                C_iommu_map_memory_region c r]))))) ∧
  (∀ e1 w1, iommu_unmap_memory_region c r (ext m) = (e1, w1) →
     (e1 ≠ 0 →
        arch_unmap_memory_region c r m =
          (e1, mk_machine (percpu m) w1
                 (calls m ++ [C_iommu_unmap_memory_region c r]))) ∧
     (e1 = 0 →
        arch_unmap_memory_region c r m =
          ((vcpu_unmap_memory_region c r w1).1,
           mk_machine (percpu m) (vcpu_unmap_memory_region c r w1).2
             (calls m ++ [C_iommu_unmap_memory_region c r;
                          C_vcpu_unmap_memory_region c r])))).
Proof.
  split; intros e1 w1 E1; err_case Herr.
  - unfold arch_map_memory_region. tx_run. tx_step E1. by tx_step Herr.
  - intros e2 w2 E2. err_case Herr2;
      unfold arch_map_memory_region; tx_run; tx_step E1; tx_step Herr;
      tx_step E2; tx_step Herr2; [|tx_done].
    destruct (vcpu_unmap_memory_region c r w2). tx_done.
  - unfold arch_unmap_memory_region. tx_run. tx_step E1. by tx_step Herr.
  - unfold arch_unmap_memory_region. tx_run. tx_step E1. tx_step Herr.
    destruct (vcpu_unmap_memory_region c r w1). tx_done.
Qed.

(** C4. [arch_cell_create] initialises vcpu, IOMMU, PCI and IOAPIC in
    that order. A failing vcpu step returns at once; a failing IOMMU step
    is followed by [vcpu_cell_exit] only; a failing PCI step by
    [iommu_cell_exit] and then [vcpu_cell_exit]; each returns the error
    and leaves the comm page alone. On success the timer address is
    written to the comm page and [0] is returned. *)
Theorem arch_cell_create_unwinds (timer : Z) c m :
  ∀ e1 w1, vcpu_cell_init c (ext m) = (e1, w1) →
    (e1 ≠ 0 →
       arch_cell_create timer c m =
         ((e1, c), mk_machine (percpu m) w1 (calls m ++ [C_vcpu_cell_init c]))) ∧
    (e1 = 0 → ∀ e2 w2, iommu_cell_init c w1 = (e2, w2) →
       (e2 ≠ 0 →
          arch_cell_create timer c m =
            ((e2, c), mk_machine (percpu m) (vcpu_cell_exit c w2)
                        (calls m ++ [C_vcpu_cell_init c; C_iommu_cell_init c;
                                     C_vcpu_cell_exit c]))) ∧
       (e2 = 0 → ∀ e3 w3, pci_cell_init c w2 = (e3, w3) →
          (e3 ≠ 0 →
             arch_cell_create timer c m =
               ((e3, c),
                mk_machine (percpu m) (vcpu_cell_exit c (iommu_cell_exit c w3))
                  (calls m ++ [C_vcpu_cell_init c; C_iommu_cell_init c;
                               C_pci_cell_init c; C_iommu_cell_exit c;
                               C_vcpu_cell_exit c]))) ∧
          (e3 = 0 →
             arch_cell_create timer c m =
               ((0, set_pm_timer_address timer c),
                mk_machine (percpu m) (ioapic_cell_init c w3)
                  (calls m ++ [C_vcpu_cell_init c; C_iommu_cell_init c;
                               C_pci_cell_init c; C_ioapic_cell_init c]))))).
Proof.
  intros e1 w1 E1. unfold arch_cell_create. tx_run. tx_step E1.
  err_case Herr1; tx_step Herr1; [done|].
  intros e2 w2 E2. tx_step E2.
  err_case Herr2; tx_step Herr2; [tx_done|].
  intros e3 w3 E3. tx_step E3.
  err_case Herr3; tx_step Herr3; tx_done.
Qed.

(** [arch_cell_destroy] tears down in the reverse order of creation. *)
Lemma arch_cell_destroy_order c m :
  arch_cell_destroy c m =
    (tt, mk_machine (percpu m)
           (vcpu_cell_exit c (iommu_cell_exit c (pci_cell_exit c
              (ioapic_cell_exit c (ext m)))))
           (calls m ++ [C_ioapic_cell_exit c; C_pci_cell_exit c;
                        C_iommu_cell_exit c; C_vcpu_cell_exit c])).
Proof. unfold arch_cell_destroy. tx_run. by rewrite <- !app_assoc. Qed.

End Transactions.

(** The rollback paths on scripted collaborators: the PCI step fails with
    -12; the IOMMU map step and the IOMMU unmap step fail with -22. *)
Lemma arch_cell_create_unwinds_witness :
  arch_cell_create 0x408 (cell_of 1 {[2%nat]}) (idle_machine [0; 0; -12]) =
    ((-12, cell_of 1 {[2%nat]}),
     mk_machine (λ _, idle_block) []
       [C_vcpu_cell_init (cell_of 1 {[2%nat]});
        C_iommu_cell_init (cell_of 1 {[2%nat]});
        C_pci_cell_init (cell_of 1 {[2%nat]});
        C_iommu_cell_exit (cell_of 1 {[2%nat]});
        C_vcpu_cell_exit (cell_of 1 {[2%nat]})]).
Proof.
  pose proof (arch_cell_create_unwinds 0x408 (cell_of 1 {[2%nat]})
                (idle_machine [0; 0; -12]) 0 [0; -12] eq_refl) as [_ W1].
  pose proof (W1 eq_refl 0 [-12] eq_refl) as [_ W2].
  pose proof (W2 eq_refl (-12) [] eq_refl) as [W3 _].
  exact (W3 ltac:(done)).
Defined.

Lemma map_unmap_memory_region_order_witness :
  arch_map_memory_region (cell_of 1 ∅) 4096 (idle_machine [0; -22; 0]) =
    (-22, mk_machine (λ _, idle_block) []
            [C_vcpu_map_memory_region (cell_of 1 ∅) 4096;
             C_iommu_map_memory_region (cell_of 1 ∅) 4096;
             C_vcpu_unmap_memory_region (cell_of 1 ∅) 4096]) ∧
  arch_unmap_memory_region (cell_of 1 ∅) 4096 (idle_machine [-22; 0]) =
    (-22, mk_machine (λ _, idle_block) [0]
            [C_iommu_unmap_memory_region (cell_of 1 ∅) 4096]).
Proof.
  split.
  - pose proof (map_unmap_memory_region_order (cell_of 1 ∅) 4096
                  (idle_machine [0; -22; 0])) as [W _].
    pose proof (W 0 [-22; 0] eq_refl) as [_ W1].
    pose proof (W1 eq_refl (-22) [0] eq_refl) as [W2 _].
    exact (W2 ltac:(done)).
  - pose proof (map_unmap_memory_region_order (cell_of 1 ∅) 4096
                  (idle_machine [-22; 0])) as [_ W].
    pose proof (W (-22) [0] eq_refl) as [W1 _].
    exact (W1 ltac:(done)).
Defined.

(** ** Configuration commit *)

Section Commit.
Context `{collaborators world mem}.
Implicit Types (m : machine world mem) (cpus : list nat).

Lemma set_flush_idemp s :
  set_flush_vcpu_caches true (set_flush_vcpu_caches true s)
  = set_flush_vcpu_caches true s.
Proof. by destruct s. Qed.

(** The marking loop touches the table only: a visited core gets the flag
    and nothing else, every other core keeps its block. *)
Lemma mark_all_spec cpus m :
  ∃ t, mark_all cpus m =
         (tt, mk_machine t (ext m) (calls m ++ (C_flush_vcpu_caches <$> cpus))) ∧
       ∀ cpu, t cpu = if bool_decide (cpu ∈ cpus)
                      then set_flush_vcpu_caches true (percpu m cpu)
                      else percpu m cpu.
Proof.
  revert m. induction cpus as [|x cpus IH]; intros m.
  - exists (percpu m). split.
    + cbn. unfold tx_ret. rewrite app_nil_r. by destruct m.
    + intros cpu. rewrite bool_decide_eq_false_2; [done|]. apply not_elem_of_nil.
  - cbn [mark_all]. unfold tx_bind, mark_flush.
    destruct (IH (mk_machine (alter (set_flush_vcpu_caches true) x (percpu m))
                    (ext m) (calls m ++ [C_flush_vcpu_caches x])))
      as (t & Ht & Hcpu).
    exists t. split.
    + rewrite Ht. cbn. by rewrite <- app_assoc.
    + intros cpu. rewrite Hcpu. cbn [percpu].
      destruct (decide (cpu = x)) as [->|Hne].
      * rewrite fn_lookup_alter.
        rewrite (bool_decide_eq_true_2 (x ∈ x :: cpus)) by (apply elem_of_cons; auto).
        case_bool_decide; [apply set_flush_idemp|done].
      * rewrite fn_lookup_alter_ne by done.
        destruct (decide (cpu ∈ cpus)).
        -- rewrite !bool_decide_eq_true_2; [done|apply elem_of_cons; auto|done].
        -- rewrite !bool_decide_eq_false_2; [done|by apply not_elem_of_cons|done].
Qed.

Lemma elem_of_for_each_cpu_except (set : gset nat) exception cpu :
  cpu ∈ for_each_cpu_except set exception ↔ cpu ∈ set ∧ cpu ≠ exception.
Proof.
  unfold for_each_cpu_except.
  by rewrite elem_of_elements, elem_of_difference, not_elem_of_singleton.
Qed.

(** The cores to mark: not the caller, and in the root cell or in a cell
    that is given and is not the root cell. *)
Lemma elem_of_commit_targets root_cell current_cpu cell_added_removed cpu :
  cpu ∈ commit_targets root_cell current_cpu cell_added_removed ↔
  cpu ≠ current_cpu ∧
  (cpu ∈ cpu_set root_cell ∨
   match cell_added_removed with
   | Some c => cell_id c ≠ cell_id root_cell ∧ cpu ∈ cpu_set c
   | None => False
   end).
Proof.
  unfold commit_targets.
  rewrite elem_of_union, elem_of_difference, not_elem_of_singleton.
  destruct cell_added_removed as [c|]; [case_bool_decide|];
    rewrite ?elem_of_difference, ?not_elem_of_singleton, ?elem_of_empty;
    tauto.
Qed.

(** C6. [arch_config_commit] sets [flush_vcpu_caches] for exactly the
    cores of the root cell other than the caller and, for a cell that is
    neither null nor the root cell, the cores of that cell other than the
    caller: such a core gets the flag and nothing else, every other core,
    the caller among them, keeps its block. After the marking come
    [vcpu_tlb_flush] and the commit calls of IOMMU, PCI and IOAPIC, in
    that order, each with the cell argument as given. *)
Theorem arch_config_commit_marks (root_cell : cell) (current_cpu : nat)
    (cell_added_removed : option cell) m :
  let m' := (arch_config_commit root_cell current_cpu cell_added_removed m).2 in
  let targets := commit_targets root_cell current_cpu cell_added_removed in
  (∀ cpu, percpu m' cpu =
            if bool_decide (cpu ∈ targets)
            then set_flush_vcpu_caches true (percpu m cpu)
            else percpu m cpu) ∧
  (current_cpu ∉ targets) ∧
  percpu m' current_cpu = percpu m current_cpu ∧
  (∃ marked : list nat,
     (∀ cpu, cpu ∈ marked ↔ cpu ∈ targets) ∧
     calls m' = calls m ++ (C_flush_vcpu_caches <$> marked) ++
                [C_vcpu_tlb_flush;
                 C_iommu_config_commit cell_added_removed;
                 C_pci_config_commit cell_added_removed;
                 C_ioapic_config_commit cell_added_removed]) ∧
  ext m' = ioapic_config_commit cell_added_removed
             (pci_config_commit cell_added_removed
                (iommu_config_commit cell_added_removed
                   (vcpu_tlb_flush (ext m)))).
Proof.
  intros m' targets.
  assert (Hcur : current_cpu ∉ targets).
  { subst targets. rewrite elem_of_commit_targets. tauto. }
  set (l1 := for_each_cpu_except (cpu_set root_cell) current_cpu).
  set (l2 := match cell_added_removed with
             | Some c => if bool_decide (cell_id c ≠ cell_id root_cell)
                         then for_each_cpu_except (cpu_set c) current_cpu
                         else []
             | None => []
             end).
  assert (Hl : ∀ cpu, cpu ∈ l1 ++ l2 ↔ cpu ∈ targets).
  { intros cpu. subst l1 l2 targets.
    rewrite elem_of_commit_targets, elem_of_app, elem_of_for_each_cpu_except.
    destruct cell_added_removed as [c|]; [case_bool_decide|];
      rewrite ?elem_of_for_each_cpu_except, ?elem_of_nil; tauto. }
  destruct (mark_all_spec l1 m) as (t1 & E1 & Ht1).
  destruct (mark_all_spec l2 (mk_machine t1 (ext m)
              (calls m ++ (C_flush_vcpu_caches <$> l1)))) as (t2 & E2 & Ht2).
  cbn [percpu ext calls] in E2, Ht2.
  assert (Em : m' = mk_machine t2
            (ioapic_config_commit cell_added_removed
               (pci_config_commit cell_added_removed
                  (iommu_config_commit cell_added_removed
                     (vcpu_tlb_flush (ext m)))))
            (calls m ++ (C_flush_vcpu_caches <$> (l1 ++ l2)) ++
               [C_vcpu_tlb_flush;
                C_iommu_config_commit cell_added_removed;
                C_pci_config_commit cell_added_removed;
                C_ioapic_config_commit cell_added_removed])).
  { subst m'. unfold arch_config_commit, tx_bind. fold l1. rewrite E1.
    replace (match cell_added_removed with
             | Some c => if bool_decide (cell_id c ≠ cell_id root_cell)
                         then mark_all (for_each_cpu_except (cpu_set c) current_cpu)
                         else tx_ret tt
             | None => tx_ret tt
             end) with (mark_all (world:=world) (mem:=mem) l2).
    2:{ subst l2. destruct cell_added_removed as [c|]; [case_bool_decide|]; done. }
    rewrite E2. unfold notify. cbn.
    by rewrite fmap_app, <- !app_assoc. }
  assert (Hall : ∀ cpu, t2 cpu =
            if bool_decide (cpu ∈ targets)
            then set_flush_vcpu_caches true (percpu m cpu)
            else percpu m cpu).
  { intros cpu. rewrite Ht2, Ht1.
    destruct (decide (cpu ∈ targets)) as [Hin|Hout].
    - rewrite (bool_decide_eq_true_2 (cpu ∈ targets)) by done.
      apply Hl, elem_of_app in Hin.
      repeat case_bool_decide; try done; [apply set_flush_idemp|tauto].
    - rewrite (bool_decide_eq_false_2 (cpu ∈ targets)) by done.
      rewrite !bool_decide_eq_false_2; [done| |];
        intros Hin; apply Hout, Hl, elem_of_app; auto. }
  rewrite Em. cbn [percpu ext calls].
  split; [done|]. split; [done|]. split.
  { rewrite Hall. by rewrite bool_decide_eq_false_2. }
  split; [|done]. by exists (l1 ++ l2).
Qed.

End Commit.

(** Two cells on a four-core machine, core 0 committing: the root cell
    owns cores 0 and 1, the new cell cores 2 and 3. *)
Example arch_config_commit_example :
  let m' := (arch_config_commit (cell_of 0 {[0%nat; 1%nat]}) 0
               (Some (cell_of 1 {[2%nat; 3%nat]})) (idle_machine [])).2 in
  flush_vcpu_caches <$> (percpu m' <$> [0; 1; 2; 3; 4]%nat)
  = [false; true; true; true; false].
Proof. vm_compute. reflexivity. Qed.

Lemma arch_config_commit_marks_witness :
  let m' := (arch_config_commit (cell_of 0 {[0%nat; 1%nat]}) 0
               (Some (cell_of 1 {[2%nat; 3%nat]})) (idle_machine [])).2 in
  percpu m' 0%nat = idle_block ∧
  percpu m' 3%nat = set_flush_vcpu_caches true idle_block ∧
  ext m' = [].
Proof.
  destruct (arch_config_commit_marks (cell_of 0 {[0%nat; 1%nat]}) 0
              (Some (cell_of 1 {[2%nat; 3%nat]})) (idle_machine []))
    as (W & _ & W0 & _ & Wext).
  cbv zeta. split; [exact W0|]. split; [|exact Wext].
  rewrite W. reflexivity.
Defined.

(** ** The event loop *)

Section HandleEvents.
Context {consts : apic_consts}.
Implicit Types (c : config) (a : action) (sched : list action) (s : per_cpu).

Lemma run_app sched1 sched2 c :
  run (sched1 ++ sched2) c = run sched2 (run sched1 c).
Proof. apply foldl_app. Qed.

Lemma run_snoc sched a c : run (sched ++ [a]) c = act (run sched c) a.
Proof. by rewrite run_app. Qed.

Lemma run_cons a sched c : run (a :: sched) c = run sched (act c a).
Proof. done. Qed.

(** Splits a configuration into its parts and a step into its cases. *)
Ltac step_cases c :=
  let p := fresh "p" in
  destruct c as [p [lk su cs sh ini wfs vec fl fv] v t]; cbn in *;
  destruct p; cbn in *;
  repeat (case_match; cbn in *); try done; try congruence.

(** No remote write touches the fields only the owning core writes. *)
Lemma apply_remote_owned r s :
  cpu_suspended (apply_remote r s) = cpu_suspended s ∧
  failed (apply_remote r s) = failed s.
Proof.
  destruct s as [lk su cs sh ini wfs vec fl fv], r as [| | | | |[] ?|];
    cbn; repeat case_match; done.
Qed.

Lemma act_failed c a : failed (cb (act c a)) = failed (cb c).
Proof.
  destruct a as [| |r]; cbn.
  - unfold x86_handle_events_enter. step_cases c.
  - step_cases c.
  - apply apply_remote_owned.
Qed.

Lemma run_failed sched c : failed (cb (run sched c)) = failed (cb c).
Proof.
  revert c. induction sched as [|a sched IH]; intros c; [done|].
  by rewrite run_cons, IH, act_failed.
Qed.

(** *** The published suspend state *)

(** [cpu_suspended] is true exactly between line 221 and line 236, and
    for good once the core is on its way to the halt. *)
Lemma act_published c a :
  cpu_suspended (cb c) = in_wait (pc c) →
  cpu_suspended (cb (act c a)) = in_wait (pc (act c a)).
Proof.
  destruct a as [| |r]; cbn.
  - unfold x86_handle_events_enter. step_cases c.
  - step_cases c.
  - intros <-. apply apply_remote_owned.
Qed.

Lemma run_published sched c :
  cpu_suspended (cb c) = in_wait (pc c) →
  cpu_suspended (cb (run sched c)) = in_wait (pc (run sched c)).
Proof.
  revert c. induction sched as [|a sched IH]; intros c Hc; [done|].
  rewrite run_cons. by apply IH, act_published.
Qed.

(** C10 (as amended). A core that enters [x86_handle_events] with
    [cpu_suspended] false is, under every interleaving with the writes of
    other cores, published as suspended exactly while it is between line
    221 and line 236 (or on its way to the halt); whenever it is back
    outside the loop, [cpu_suspended] is false. *)
Theorem handle_events_returns_unsuspended sched c :
  pc c = Guest → cpu_suspended (cb c) = false →
  let c' := run sched c in
  cpu_suspended (cb c') = in_wait (pc c') ∧
  (pc c' = Guest → cpu_suspended (cb c') = false).
Proof.
  intros Hpc Hcs c'.
  assert (Hinv : cpu_suspended (cb c') = in_wait (pc c')).
  { apply run_published. by rewrite Hpc, Hcs. }
  split; [done|]. intros Hg. by rewrite Hinv, Hg.
Qed.

(** *** Shutdown *)

Lemma apply_remote_shutdown r s :
  shutdown_cpu s = true → shutdown_cpu (apply_remote r s) = true.
Proof.
  destruct s as [lk su cs sh ini wfs vec fl fv], r as [| | | | |[] ?|];
    cbn; repeat case_match; done.
Qed.

(** Once the set flag has been read nothing turns the core back: each of
    its steps takes it one line closer to the halt, making the call of
    that line, and nothing is returned. *)
Lemma act_doomed c a :
  doomed c →
  doomed (act c a) ∧
  returns (act c a) = returns c ∧
  tr (act c a) ++ halt_rest (pc (act c a)) = tr c ++ halt_rest (pc c) ∧
  halt_dist (pc (act c a)) =
    match a with A_step => pred (halt_dist (pc c)) | _ => halt_dist (pc c) end.
Proof.
  unfold doomed. destruct a as [| |r]; cbn.
  - unfold x86_handle_events_enter. step_cases c; intuition congruence.
  - unfold returns. step_cases c; intros [[? ?]|?]; simplify_eq;
      rewrite ?omap_app, <- ?app_assoc, ?app_nil_r; cbn; intuition congruence.
  - intros [[? Hsh]|?]; [|tauto].
    split; [|done]. left. split; [done|]. by apply apply_remote_shutdown.
Qed.

Lemma run_doomed sched c :
  doomed c →
  doomed (run sched c) ∧
  returns (run sched c) = returns c ∧
  tr (run sched c) ++ halt_rest (pc (run sched c)) = tr c ++ halt_rest (pc c) ∧
  halt_dist (pc (run sched c)) = (halt_dist (pc c) - local_steps sched)%nat.
Proof.
  revert c. induction sched as [|a sched IH]; intros c Hc.
  { cbn. split; [done|]. split; [done|]. split; [done|]. lia. }
  rewrite run_cons. destruct (act_doomed c a Hc) as (Hd & Hr & Ht & Hn).
  destruct (IH _ Hd) as (Hd' & Hr' & Ht' & Hn').
  split; [done|]. split; [congruence|]. split; [congruence|].
  rewrite Hn', Hn. destruct a; cbn; lia.
Qed.

Lemma halt_dist_0 c : doomed c → halt_dist (pc c) = 0%nat → pc c = H231.
Proof. unfold doomed. step_cases c; intros [[? ?]|?]; done. Qed.

(** C9. [arch_shutdown_cpu] is [arch_suspend_cpu], then the write of
    [shutdown_cpu], then [arch_resume_cpu]: it returns only if the
    suspend does, and then with [shutdown_cpu] set and [suspend_cpu]
    clear. A core that leaves its wait loop and finds [shutdown_cpu] set
    at line 228 calls [apic_clear], then [vcpu_exit], and stays at the
    halt of line 231 whatever the other cores do: no value is ever
    returned again. *)
Theorem shutdown_halts_core (env : list interference) (s : per_cpu)
    sched c :
  match arch_shutdown_cpu env s with
  | Done s' evs env' =>
      ∃ s1 evs1,
        arch_suspend_cpu env s = Done s1 evs1 env' ∧
        s' = arch_resume_cpu (set_shutdown_cpu true s1) ∧
        evs = evs1 ++ [Ev_memory_barrier] ∧
        shutdown_cpu s' = true ∧ suspend_cpu s' = false
  | Spinning evs => arch_suspend_cpu env s = Spinning evs
  end ∧
  (pc c = H228 → shutdown_cpu (cb c) = true →
   let c' := run sched c in
   (pc c' = H228 ∨ halting (pc c') = true) ∧
   pc c' ≠ Guest ∧
   returns c' = returns c ∧
   ((3 ≤ local_steps sched)%nat →
      pc c' = H231 ∧ tr c' = tr c ++ [Ev_apic_clear; Ev_vcpu_exit])).
Proof.
  split.
  - unfold arch_shutdown_cpu.
    destruct (arch_suspend_cpu env s) as [s1 evs1 env1|evs1]; [|done].
    exists s1, evs1. by destruct s1.
  - intros Hpc Hsh c'.
    assert (Hc : doomed c) by (by left).
    destruct (run_doomed sched c Hc) as (Hd & Hr & Ht & Hn).
    fold c' in Hd, Hr, Ht, Hn.
    split; [destruct Hd as [[? _]|?]; auto|].
    split; [destruct Hd as [[-> _]|Hh]; [done|by intros E; rewrite E in Hh]|].
    split; [done|]. intros Hsteps.
    assert (Hend : pc c' = H231).
    { apply halt_dist_0; [done|]. rewrite Hn, Hpc. cbn. lia. }
    split; [done|]. rewrite Hend, Hpc in Ht. cbn in Ht.
    by rewrite app_nil_r in Ht.
Qed.

(** *** Where returned vectors come from *)

Lemma vector_source_mono sched a c0 v :
  vector_source sched c0 v → vector_source (sched ++ [a]) c0 v.
Proof.
  intros [(pre & post & -> & Hlk & Hw)|[-> Hr]].
  - left. exists pre, (post ++ [a]). by rewrite <- app_assoc.
  - right. split; [done|]. unfold reset_issued in *. apply elem_of_app; auto.
Qed.

Lemma vector_source_reset sched c0 :
  vector_source (sched ++ [A_remote R_reset_vector]) c0 APIC_BSP_PSEUDO_SIPI.
Proof.
  right. split; [done|]. unfold reset_issued.
  apply elem_of_app. right. apply elem_of_cons. auto.
Qed.

Lemma vector_source_sipi sched c0 v :
  control_lock (cb (run sched c0)) = false →
  wait_for_sipi (cb (run sched c0)) = true →
  vector_source (sched ++ [A_remote (R_init_sipi X86_SIPI v)]) c0 v.
Proof. intros Hlk Hw. left. by exists sched, []. Qed.

Lemma traced_upgrade sched a c0 c :
  vectors_traced sched c0 c →
  (0 ≤ sipi_vector (cb c) →
     vector_source (sched ++ [a]) c0 (sipi_vector (cb c))) ∧
  (pc c ≠ Guest → 0 ≤ sipi c →
     vector_source (sched ++ [a]) c0 (sipi c) ∧ failed (cb c) = false) ∧
  (pc c = H240 ∨ pc c = H241 → failed (cb c) = false) ∧
  (∀ v, v ∈ returns c → 0 ≤ v →
     vector_source (sched ++ [a]) c0 v ∧ failed (cb c) = false).
Proof.
  intros (Hfield & Hloc & Hchk & Hret).
  pose proof (vector_source_mono sched a c0) as Hmono.
  split; [auto|]. split; [|split; [done|]].
  - intros Hp Hv. destruct (Hloc Hp Hv). auto.
  - intros v Hin Hv. destruct (Hret v Hin Hv). auto.
Qed.

(** Only line 261 returns, and it returns the local variable. *)
Lemma returns_act c a :
  returns (act c a) = returns c ∨
  (pc c = H261 ∧ returns (act c a) = returns c ++ [sipi c]).
Proof.
  destruct a as [| |r]; cbn; [unfold x86_handle_events_enter| |by left]; unfold returns;
    destruct c as [p [lk su cs sh ini wfs vec fl fv] v t]; cbn in *;
    destruct p; cbn in *; repeat (case_match; cbn in * );
    rewrite ?omap_app, ?app_nil_r; cbn; auto.
Qed.

(** Closes the cases of one action on a split configuration. *)
Ltac traced_solve :=
  repeat match goal with
         | E : negb _ = true |- _ => apply negb_true_iff in E
         | E : negb _ = false |- _ => apply negb_false_iff in E
         end;
  repeat split; intros; cbn in *;
  try (intuition (subst; first [done | lia | congruence | eauto])).

Lemma act_vectors_traced sched c0 c a :
  run sched c0 = c →
  vectors_traced sched c0 c →
  vectors_traced (sched ++ [a]) c0 (act c a).
Proof.
  intros Hrun Hinv.
  pose proof (vector_source_reset sched c0) as Hreset.
  pose proof (vector_source_sipi sched c0) as Hsipi. rewrite Hrun in Hsipi.
  destruct (traced_upgrade sched a c0 c Hinv) as (Hfield & Hloc & Hchk & Hret).
  clear Hinv Hrun. unfold vectors_traced.
  assert (Hret' : ∀ v, v ∈ returns (act c a) → 0 ≤ v →
            vector_source (sched ++ [a]) c0 v ∧ failed (cb (act c a)) = false).
  { intros v Hin Hv. rewrite act_failed.
    destruct (returns_act c a) as [E|[Hp E]]; rewrite E in Hin; [by apply Hret|].
    apply elem_of_app in Hin as [Hin| ->%list_elem_of_singleton];
      [by apply Hret|]. apply Hloc; [by rewrite Hp|done]. }
  revert Hret'. generalize (returns (act c a)). intros R HR.
  cut ((0 ≤ sipi_vector (cb (act c a)) →
          vector_source (sched ++ [a]) c0 (sipi_vector (cb (act c a)))) ∧
       (pc (act c a) ≠ Guest → 0 ≤ sipi (act c a) →
          vector_source (sched ++ [a]) c0 (sipi (act c a)) ∧
          failed (cb (act c a)) = false) ∧
       (pc (act c a) = H240 ∨ pc (act c a) = H241 →
          failed (cb (act c a)) = false)).
  { intros (? & ? & ?). done. }
  clear HR R Hret.
  destruct a as [| |r].
  - clear Hreset Hsipi.
    generalize dependent (vector_source (sched ++ [A_call]) c0).
    intros Q ??. cbn [act]. unfold x86_handle_events_enter.
    destruct c as [p [lk su cs sh ini wfs vec fl fv] v t]; cbn in *;
      destruct p; cbn in *; traced_solve.
  - clear Hreset Hsipi.
    generalize dependent (vector_source (sched ++ [A_step]) c0).
    intros Q ??. cbn [act].
    destruct c as [p [lk su cs sh ini wfs vec fl fv] v t]; cbn in *;
      destruct p; cbn in *; repeat (case_match; cbn in * ); traced_solve.
  - cbn [act].
    destruct c as [p [lk su cs sh ini wfs vec fl fv] v t]; cbn in *.
    destruct r as [| | | | |[] vector|]; cbn in *;
      repeat (case_match; cbn in * ); simplify_eq; traced_solve.
Qed.

Lemma run_vectors_traced sched c0 :
  vectors_traced [] c0 c0 → vectors_traced sched c0 (run sched c0).
Proof.
  intros H0. induction sched as [|a sched IH] using rev_ind; [done|].
  rewrite run_snoc. by apply act_vectors_traced.
Qed.

(** C2 (as amended). Under every interleaving of the remote writes with
    the steps of the owning core, starting outside the loop with no
    vector pending, a value [v >= 0] is returned by [x86_handle_events]
    only if the core is not [failed] and [v] was either stored by a SIPI
    of [x86_send_init_sipi] at a moment the core was marked
    [wait_for_sipi], or is [APIC_BSP_PSEUDO_SIPI] and [arch_reset_cpu]
    has stored it (which it does whether or not the core ever waited). *)
Theorem returned_vector_has_source sched c0 v :
  pc c0 = Guest → sipi_vector (cb c0) < 0 → returns c0 = [] →
  v ∈ returns (run sched c0) → 0 ≤ v →
  failed (cb c0) = false ∧
  (sipi_recorded sched c0 v ∨
   (v = APIC_BSP_PSEUDO_SIPI ∧ reset_issued sched)).
Proof.
  intros Hpc Hvec Hret Hin Hv.
  assert (H0 : vectors_traced [] c0 c0).
  { unfold vectors_traced. rewrite Hpc, Hret.
    split; [lia|]. split; [done|]. split; [by intros [?|?]|].
    intros ? Hnil. by apply elem_of_nil in Hnil. }
  destruct (run_vectors_traced sched c0 H0) as (_ & _ & _ & Hall).
  destruct (Hall v Hin Hv) as [Hsrc Hf]. rewrite run_failed in Hf. done.
Qed.

(** The reset of a suspended core that never waited for a SIPI hands it
    the pseudo vector, for every value of the constant that is a vector. *)
Lemma reset_returns_pseudo_vector :
  0 ≤ APIC_BSP_PSEUDO_SIPI →
  returns (run reset_schedule (in_guest idle_block)) = [APIC_BSP_PSEUDO_SIPI] ∧
  never_waited reset_schedule (in_guest idle_block) = true.
Proof.
  destruct consts as [v]. cbn [APIC_BSP_PSEUDO_SIPI]. intros Hv.
  destruct v as [|q|q]; [| |lia]; vm_compute; done.
Qed.

(** *** A failed core *)

Lemma act_barred c a :
  barred c →
  barred (act c a) ∧
  ∃ new, returns (act c a) = returns c ++ new ∧ Forall (λ v, v < 0) new.
Proof.
  intros (Hf & Hloc & Hn240 & Hn241). split.
  - unfold barred. rewrite act_failed. split; [done|].
    destruct a as [| |r]; cbn [act]; [unfold x86_handle_events_enter| |];
      destruct c as [p [lk su cs sh ini wfs vec fl fv] v t]; cbn in *;
      try (destruct p; cbn in *; repeat (case_match; cbn in * ));
      traced_solve.
  - destruct (returns_act c a) as [E|[Hp E]]; rewrite E.
    + exists []. by rewrite app_nil_r.
    + exists [sipi c]. split; [done|]. constructor; [|done].
      apply Hloc. by rewrite Hp.
Qed.

Lemma run_barred sched c :
  barred c →
  ∃ new, returns (run sched c) = returns c ++ new ∧ Forall (λ v, v < 0) new.
Proof.
  revert c. induction sched as [|a sched IH]; intros c Hc.
  { exists []. by rewrite app_nil_r. }
  rewrite run_cons. destruct (act_barred c a Hc) as (Hc' & new1 & E1 & F1).
  destruct (IH _ Hc') as (new2 & E2 & F2).
  exists (new1 ++ new2). rewrite E2, E1, <- app_assoc. split; [done|].
  by apply Forall_app.
Qed.

(** *** One pass without interference *)

(** C1 (as amended). From a block with [init_signaled] set, [suspend_cpu]
    clear and a startup vector pending, the next call of
    [x86_handle_events] clears [init_signaled], sets [wait_for_sipi] and
    returns -1; the only other field it writes is [flush_vcpu_caches].
    The stored [sipi_vector] is not reset: the vector stays pending, and
    the call after that returns it unless the core is failed or shut
    down. *)
Theorem init_preempts_pending_vector s :
  control_lock s = false → init_signaled s = true → suspend_cpu s = false →
  0 ≤ sipi_vector s →
  let c1 := x86_handle_events 16 (in_guest s) in
  pc c1 = Guest ∧
  returns c1 = [-1] ∧
  cb c1 = set_flush_vcpu_caches false (x86_enter_wait_for_sipi s) ∧
  init_signaled (cb c1) = false ∧
  wait_for_sipi (cb c1) = true ∧
  sipi_vector (cb c1) = sipi_vector s ∧
  (failed s = false → shutdown_cpu s = false →
   let c2 := x86_handle_events 24 c1 in
   pc c2 = Guest ∧ returns c2 = [-1; sipi_vector s] ∧
   wait_for_sipi (cb c2) = false ∧ sipi_vector (cb c2) = -1).
Proof.
  destruct s as [lk su cs sh ini wfs vec fl fv]; cbn.
  intros -> -> -> Hvec.
  destruct vec as [|q|q]; [| |lia];
    (split_and!; [by destruct fv..|]); intros -> ->;
    destruct fv; vm_compute; done.
Qed.

(** C8. When the owning core has left the wait loop and retaken the lock
    (line 236) with a startup vector pending: if [failed] is false it
    clears [wait_for_sipi], loads the vector into the variable it returns
    and resets the field to -1, and with no INIT pending that call
    returns the vector; if [failed] is true it resets the field to -1,
    leaves [wait_for_sipi] and the variable as they are, and no value
    [>= 0] is returned by this or any later call, whatever the other
    cores do. *)
Theorem wait_exit_takes_pending_vector c :
  pc c = H236 → 0 ≤ sipi_vector (cb c) →
  let s := cb c in
  (failed s = false →
     Nat.iter 6 x86_handle_events_step c =
       mk_config H245
         (set_sipi_vector (-1)
            (set_wait_for_sipi false (set_cpu_suspended false s)))
         (sipi_vector s) (tr c) ∧
     (init_signaled s = false →
      let c' := Nat.iter 16 x86_handle_events_step c in
      pc c' = Guest ∧ returns c' = returns c ++ [sipi_vector s] ∧
      wait_for_sipi (cb c') = false ∧ sipi_vector (cb c') = -1)) ∧
  (failed s = true →
     Nat.iter 4 x86_handle_events_step c =
       mk_config H245 (set_sipi_vector (-1) (set_cpu_suspended false s))
         (sipi c) (tr c) ∧
     (sipi c < 0 → ∀ sched, ∃ new,
        returns (run sched c) = returns c ++ new ∧ Forall (λ v, v < 0) new)).
Proof.
  intros Hpc Hvec s. split; intros Hf.
  - destruct c as [p [lk su cs sh ini wfs vec fl fv] v t]; cbn in *. subst p fl.
    destruct vec as [|q|q]; [| |lia]; (split; [reflexivity|]); intros ->;
      destruct fv; unfold returns; cbn; rewrite ?omap_app; cbn;
      by rewrite ?app_nil_r, <- ?app_assoc.
  - split.
    + destruct c as [p [lk su cs sh ini wfs vec fl fv] v t]; cbn in *. subst p fl.
      destruct vec as [|q|q]; [| |lia]; reflexivity.
    + intros Hloc sched. apply run_barred. unfold barred. by rewrite Hpc.
Qed.

End HandleEvents.

(* ===================================================================== *)
(** ** The event loop under interleaving: ownership, lock and exits       *)
(* ===================================================================== *)

Section Interleavings.
Context {consts : apic_consts}.
Implicit Types (c : config) (a : action) (sched : list action) (s : per_cpu).

Ltac block_cases s :=
  destruct s as [lk su cs sh ini wfs vec fl fv]; cbn in *.
Ltac step_cases c :=
  let p := fresh "p" in
  destruct c as [p [lk su cs sh ini wfs vec fl fv] v t]; cbn in *;
  destruct p; cbn in *;
  repeat (case_match; cbn in *); try done; try congruence.
Ltac remote_cases r s :=
  destruct s as [lk su cs sh ini wfs vec fl fv], r as [| | | | |[] ?|];
  cbn in *; repeat (case_match; cbn in *); try done; try congruence.

Ltac inv_solve :=
  intuition (subst; cbn in *; try done; try congruence; try lia).

(** *** Who writes what *)

Lemma apply_remote_frame r s :
  wait_for_sipi (apply_remote r s) = wait_for_sipi s ∧
  cpu_suspended (apply_remote r s) = cpu_suspended s ∧
  control_lock (apply_remote r s) = control_lock s.
Proof. remote_cases r s. Qed.

Lemma local_frame c a :
  match a with A_remote _ => False | _ => True end →
  suspend_cpu (cb (act c a)) = suspend_cpu (cb c) ∧
  shutdown_cpu (cb (act c a)) = shutdown_cpu (cb c).
Proof.
  destruct a as [| |r]; [| |done]; intros _; cbn;
    [unfold x86_handle_events_enter|]; step_cases c.
Qed.

(** The fields are shared out between the writers. The functions that
    run on other cores ([arch_suspend_cpu], [arch_resume_cpu],
    [arch_reset_cpu], [arch_park_cpu], [arch_shutdown_cpu],
    [x86_send_init_sipi], [arch_config_commit]) never write
    [wait_for_sipi] or [cpu_suspended] of the target, and do not move it;
    [x86_handle_events] never writes [suspend_cpu] or [shutdown_cpu] of
    its own block. *)
Theorem field_ownership sched c :
  (only_remote sched →
     wait_for_sipi (cb (run sched c)) = wait_for_sipi (cb c) ∧
     cpu_suspended (cb (run sched c)) = cpu_suspended (cb c) ∧
     pc (run sched c) = pc c ∧ tr (run sched c) = tr c) ∧
  (only_local sched →
     suspend_cpu (cb (run sched c)) = suspend_cpu (cb c) ∧
     shutdown_cpu (cb (run sched c)) = shutdown_cpu (cb c)).
Proof.
  split; intros Hs; revert c; induction Hs as [|a sched Ha Hs IH]; intros c;
    try done; rewrite run_cons.
  - destruct a as [| |r]; try done. cbn [act].
    destruct (IH (store (apply_remote r) c)) as (-> & -> & -> & ->).
    destruct (apply_remote_frame r (cb c)) as (? & ? & ?). by cbn.
  - destruct (IH (act c a)) as (-> & ->). by apply local_frame.
Qed.

(** *** The lock *)

Lemma act_lock c a :
  control_lock (cb c) = holds_lock (pc c) →
  control_lock (cb (act c a)) = holds_lock (pc (act c a)).
Proof.
  destruct a as [| |r]; cbn.
  - unfold x86_handle_events_enter. step_cases c.
  - step_cases c.
  - intros <-. apply apply_remote_frame.
Qed.

Lemma run_lock sched c :
  control_lock (cb c) = holds_lock (pc c) →
  control_lock (cb (run sched c)) = holds_lock (pc (run sched c)).
Proof.
  revert c. induction sched as [|a sched IH]; intros c Hc; [done|].
  rewrite run_cons. by apply IH, act_lock.
Qed.

(** From a start in guest mode with a free lock, under every
    interleaving with remote writes, [control_lock] is held exactly on
    lines 213-223 and 235-252: the core has released it whenever it is
    back in guest mode, and while it spins at line 225 or halts, so a
    remote [spin_lock] on it is never blocked for good. *)
Theorem lock_released_outside sched c :
  pc c = Guest → control_lock (cb c) = false →
  let c' := run sched c in
  control_lock (cb c') = holds_lock (pc c') ∧
  (pc c' = Guest → control_lock (cb c') = false) ∧
  (in_wait (pc c') = true → pc c' ≠ H223 → pc c' ≠ H236 →
     control_lock (cb c') = false).
Proof.
  intros Hpc Hlk c'.
  assert (Hinv : control_lock (cb c') = holds_lock (pc c')).
  { apply run_lock. by rewrite Hpc, Hlk. }
  split; [done|]. rewrite Hinv. split; [by intros ->|].
  destruct (pc c'); done.
Qed.

(** *** Suspension *)

Lemma act_suspended_entry c a :
  resumes a = false → suspended_entry c →
  suspended_entry (act c a) ∧ returns (act c a) = returns c ∧
  tr (act c a) = tr c ∧
  (pc c ≠ Guest →
   spin_dist (pc (act c a)) ≤
     match a with A_step => pred (spin_dist (pc c)) | _ => spin_dist (pc c) end)%nat.
Proof.
  unfold suspended_entry. intros Ha (Hsu & Hlk & Hpc & Hcs).
  destruct a as [| |r]; cbn [act].
  - unfold x86_handle_events_enter.
    step_cases c; inv_solve.
  - step_cases c; inv_solve.
  - destruct r as [| | | | |[] ?|]; try done;
    destruct c as [p [lk su cs sh ini wfs vec fl fv] v t]; cbn in *;
      repeat (case_match; cbn in * ); inv_solve.
Qed.

Lemma run_suspended_entry sched c :
  no_resume sched → suspended_entry c →
  suspended_entry (run sched c) ∧ returns (run sched c) = returns c ∧
  tr (run sched c) = tr c ∧
  (pc c ≠ Guest →
   pc (run sched c) ≠ Guest ∧
   spin_dist (pc (run sched c)) ≤ spin_dist (pc c) - local_steps sched)%nat.
Proof.
  intros Hs. revert c. induction Hs as [|a sched Ha Hs IH]; intros c Hc.
  { cbn. split; [done|]. split; [done|]. split; [done|].
    intros Hp. split; [done|lia]. }
  rewrite run_cons.
  destruct (act_suspended_entry c a Ha Hc) as (Hc' & Hr & Ht & Hd).
  destruct (IH _ Hc') as (Hc'' & Hr' & Ht' & Hd').
  split; [done|]. split; [congruence|]. split; [congruence|].
  intros Hpc. specialize (Hd Hpc).
  assert (Hpc' : pc (act c a) ≠ Guest).
  { destruct Hc as (_ & _ & [?|He] & _); [done|].
    clear -Hpc He. destruct a as [| |r]; cbn;
      [unfold x86_handle_events_enter| |done]; step_cases c. }
  destruct (Hd' Hpc') as [? Hle]. split; [done|].
  destruct a; cbn [local_steps]; lia.
Qed.

(** While nobody runs [arch_resume_cpu], a core that enters the loop
    with [suspend_cpu] set does not leave it: whatever else is written to
    its block (INIT and SIPI signals, a reset or park vector, the
    shutdown flag, a flush request), it makes no call and returns
    nothing, and after five steps of its own it spins at line 225 with
    [cpu_suspended] published and the lock free. *)
Theorem suspended_core_stays_in_wait sched c :
  no_resume sched →
  pc c = H212 → control_lock (cb c) = false → suspend_cpu (cb c) = true →
  let c' := run sched c in
  entering (pc c') = true ∧
  returns c' = returns c ∧ tr c' = tr c ∧
  ((5 ≤ local_steps sched)%nat →
     pc c' = H225 ∧ cpu_suspended (cb c') = true ∧
     control_lock (cb c') = false).
Proof.
  intros Hs Hpc Hlk Hsu c'.
  assert (Hc : suspended_entry c).
  { unfold suspended_entry. rewrite Hpc, Hlk. split_and!; try done; auto.
    intros [?|?]; done. }
  destruct (run_suspended_entry sched c Hs Hc) as (Hc' & Hr & Ht & Hd).
  fold c' in Hc', Hr, Ht, Hd.
  destruct Hd as [Hng Hd]; [by rewrite Hpc|].
  destruct Hc' as (Hsu' & Hlk' & [?|Hent] & Hcs'); [done|].
  split; [done|]. split; [done|]. split; [done|].
  intros Hn. rewrite Hpc in Hd. cbn in Hd.
  assert (Hat : pc c' = H225).
  { destruct (pc c'); cbn in *; try done; lia. }
  split; [done|]. split; [auto|]. by rewrite Hlk', Hat.
Qed.

(** *** A core marked for shutdown *)

Lemma act_marked c a :
  marked_for_shutdown c →
  marked_for_shutdown (act c a) ∧
  (wait_for_sipi (cb c) = true → wait_for_sipi (cb (act c a)) = true) ∧
  (returns (act c a) = returns c ∨
   (returns (act c a) = returns c ++ [-1] ∧
    wait_for_sipi (cb (act c a)) = true)).
Proof.
  intros Hm. assert (Hm' := Hm). destruct Hm' as (Hsh & Hp & Hloc & Hw).
  assert (H1 : marked_for_shutdown (act c a) ∧
               (wait_for_sipi (cb c) = true →
                wait_for_sipi (cb (act c a)) = true)).
  { unfold marked_for_shutdown. clear Hm.
    destruct a as [| |r]; cbn [act].
    - unfold x86_handle_events_enter. step_cases c; inv_solve.
    - step_cases c; inv_solve.
    - destruct r as [| | | | |[] ?|];
        destruct c as [p [lk su cs sh ini wfs vec fl fv] v t]; cbn in *;
        repeat (case_match; cbn in * ); inv_solve. }
  destruct H1 as [H1 H2]. split; [done|]. split; [done|].
  destruct (returns_act c a) as [E|[Hpc E]]; [by left|right].
  rewrite E, Hloc by (by rewrite Hpc). split; [done|].
  apply H2, Hw. by rewrite Hpc.
Qed.

Lemma run_marked sched c :
  marked_for_shutdown c →
  marked_for_shutdown (run sched c) ∧
  (wait_for_sipi (cb c) = true → wait_for_sipi (cb (run sched c)) = true) ∧
  ∃ new, returns (run sched c) = returns c ++ new ∧
         Forall (λ v, v = -1) new ∧
         (new ≠ [] → wait_for_sipi (cb (run sched c)) = true).
Proof.
  revert c. induction sched as [|a sched IH]; intros c Hc.
  { split; [done|]. split; [done|]. exists []. by rewrite app_nil_r. }
  rewrite run_cons. destruct (act_marked c a Hc) as (Hc' & Hw & Hr).
  destruct (IH _ Hc') as (Hc'' & Hw' & new & E & Hall & Hne).
  split; [done|]. split; [auto|].
  destruct Hr as [Hr|[Hr Hw1]].
  - exists new. by rewrite E, Hr.
  - exists (-1 :: new). rewrite E, Hr, <- app_assoc. split; [done|].
    split; [by constructor|]. auto.
Qed.

(** A core that is outside the event loop with [shutdown_cpu] set never
    starts guest code again, whatever the other cores write and however
    the steps interleave: the flag stays, the core never takes the exit
    that loads a startup vector, and every call that still returns (one
    that an INIT ends) returns -1 with [wait_for_sipi] set. *)
Theorem marked_core_never_starts sched c :
  pc c = Guest → shutdown_cpu (cb c) = true →
  let c' := run sched c in
  shutdown_cpu (cb c') = true ∧
  shutdown_path (pc c') = true ∧
  ∃ new, returns c' = returns c ++ new ∧
         Forall (λ v, v = -1) new ∧
         (new ≠ [] → wait_for_sipi (cb c') = true).
Proof.
  intros Hpc Hsh c'.
  assert (Hc : marked_for_shutdown c).
  { unfold marked_for_shutdown. rewrite Hpc. split_and!; done. }
  destruct (run_marked sched c Hc) as ((? & ? & _) & _ & Hnew). done.
Qed.

(** *** A pending flush *)

Lemma flushes_act c a :
  flushes (act c a) = flushes c ∨
  (pc c = H249 ∧ flushes (act c a) = S (flushes c)).
Proof.
  destruct a as [| |r]; cbn; [unfold x86_handle_events_enter| |by left];
    unfold flushes;
    destruct c as [p [lk su cs sh ini wfs vec fl fv] v t]; cbn in *;
    destruct p; cbn in *; repeat (case_match; cbn in * );
    rewrite ?omap_app, ?length_app; cbn; auto.
  right. split; [done|]. lia.
Qed.

Lemma act_flush_owed c0 c a : flush_owed c0 c → flush_owed c0 (act c a).
Proof.
  intros [(Hr & Hle & Hc)|Hlt].
  2:{ right. destruct (flushes_act c a) as [->|[_ ->]]; lia. }
  unfold flush_owed. revert Hr Hle. generalize (returns c0), (flushes c0).
  intros r0 n0 Hr Hle.
  destruct a as [| |r]; cbn [act].
  - unfold x86_handle_events_enter. left. step_cases c; inv_solve.
  - unfold flushes, returns in *. step_cases c;
      rewrite ?omap_app, ?length_app, ?app_nil_r; cbn; inv_solve.
  - left. destruct r as [| | | | |[] ?|];
      destruct c as [p [lk su cs sh ini wfs vec fl fv] v t]; cbn in *;
      repeat (case_match; cbn in * ); inv_solve.
Qed.

Lemma run_flush_owed sched c0 c : flush_owed c0 c → flush_owed c0 (run sched c).
Proof.
  revert c. induction sched as [|a sched IH]; intros c Hc; [done|].
  rewrite run_cons. by apply IH, act_flush_owed.
Qed.

(** A flush request is not lost: if [flush_vcpu_caches] is set while the
    test of line 247 is still ahead of the core, then under every
    interleaving the core calls [vcpu_tlb_flush] before its next return
    to the caller. *)
Theorem pending_flush_honoured sched c :
  flush_vcpu_caches (cb c) = true → before_flush_test (pc c) = true →
  returns (run sched c) ≠ returns c →
  (flushes c < flushes (run sched c))%nat.
Proof.
  intros Hf Hp Hr.
  assert (H0 : flush_owed c c) by (left; auto).
  destruct (run_flush_owed sched c c H0) as [(E & _)|Hlt]; done.
Qed.

(** *** The end of a call *)

Ltac exit_solve :=
  rewrite ?last_snoc in *; split_and!; intros;
  repeat match goal with
         | E : _ ++ [_] = _ ++ [_] |- _ =>
             apply app_inj_tail in E as [? E]; simplify_eq
         | E : negb _ = true |- _ => apply negb_true_iff in E
         | E : negb _ = false |- _ => apply negb_false_iff in E
         | E : (_ <=? _) = true |- _ => apply Z.leb_le in E
         | E : (_ <=? _) = false |- _ => apply Z.leb_gt in E
         end;
  try done;
  try (by eauto);
  try inv_solve.

Lemma act_exit_consistent c a : exit_consistent c → exit_consistent (act c a).
Proof.
  unfold exit_consistent.
  intros (Ha & Hb & Hc & Hd & He & Hf & Hg & Hh & Hi).
  destruct a as [| |r]; cbn [act].
  - unfold x86_handle_events_enter.
    destruct c as [p [lk su cs sh ini wfs vec fl fv] v t]; cbn in *.
    destruct p; cbn in *; exit_solve.
  - destruct c as [p [lk su cs sh ini wfs vec fl fv] v t]; cbn in *.
    destruct p; cbn in *; repeat (case_match; cbn in * ); exit_solve.
  - destruct (apply_remote_frame r (cb c)) as (Hw & _ & _).
    destruct c as [p s v t]; cbn in *. rewrite Hw. split_and!; done.
Qed.

Lemma run_exit_consistent sched c :
  exit_consistent c → exit_consistent (run sched c).
Proof.
  revert c. induction sched as [|a sched IH]; intros c Hc; [done|].
  rewrite run_cons. by apply IH, act_exit_consistent.
Qed.

(** What [x86_handle_events] does last before it returns tells the
    result and the state apart, under every interleaving: the call right
    before the return is [vcpu_park] exactly if the core is waiting for a
    SIPI, and [apic_clear] exactly if a vector (a value that is not
    negative) is returned; a returned vector means the core is no longer
    waiting for a SIPI. *)
Theorem return_matches_wait_state sched c0 t v :
  pc c0 = Guest → tr c0 = [] →
  let c := run sched c0 in
  pc c = Guest → tr c = t ++ [Ev_return v] →
  (wait_for_sipi (cb c) = true ↔ last t = Some Ev_vcpu_park) ∧
  (0 ≤ v ↔ last t = Some Ev_apic_clear) ∧
  (0 ≤ v → wait_for_sipi (cb c) = false).
Proof.
  intros Hpc Htr c Hg Ht.
  assert (H0 : exit_consistent c0).
  { unfold exit_consistent. rewrite Hpc, Htr. split_and!; try done.
    - by intros [?|?].
    - intros _ t' v' E. by destruct t'. }
  destruct (run_exit_consistent sched c0 H0) as (_ & _ & _ & _ & _ & _ & _ & _ & Hi).
  fold c in Hi. destruct (Hi Hg t v Ht) as [(Hw & Hv & Hl)|[(Hw & Hv & Hl)|(Hw & Hv & Hl1 & Hl2)]];
    rewrite Hw; repeat split; intros; try done; try lia; try congruence.
Qed.

(** *** A halted core *)

Lemma act_halting_flag c a :
  (halting (pc c) = true → shutdown_cpu (cb c) = true) →
  halting (pc (act c a)) = true → shutdown_cpu (cb (act c a)) = true.
Proof.
  destruct a as [| |r]; cbn [act].
  - unfold x86_handle_events_enter. step_cases c.
  - step_cases c; inv_solve.
  - cbn. intros Hc Hp. by apply apply_remote_shutdown, Hc.
Qed.

Lemma run_halting_flag sched c :
  (halting (pc c) = true → shutdown_cpu (cb c) = true) →
  halting (pc (run sched c)) = true → shutdown_cpu (cb (run sched c)) = true.
Proof.
  revert c. induction sched as [|a sched IH]; intros c Hc; [done|].
  rewrite run_cons. by apply IH, act_halting_flag.
Qed.

(** A core that halted on line 231 does not block the others: it halted
    with [cpu_suspended] set and its lock free, so a later
    [arch_suspend_cpu] on it returns at once and sends no NMI, and so
    does a second [arch_shutdown_cpu]. *)
Theorem halted_core_suspend_returns sched c0 env :
  pc c0 = Guest → control_lock (cb c0) = false →
  cpu_suspended (cb c0) = false →
  let c := run sched c0 in
  halting (pc c) = true →
  arch_suspend_cpu env (cb c) = Done (set_suspend_cpu true (cb c)) [] env ∧
  arch_shutdown_cpu env (cb c) =
    Done (set_suspend_cpu false (cb c)) [Ev_memory_barrier] env.
Proof.
  intros Hpc Hlk Hcs c Hh.
  assert (Hlk' : control_lock (cb c) = false).
  { unfold c. rewrite run_lock by (by rewrite Hpc, Hlk).
    fold c. by destruct (pc c). }
  assert (Hcs' : cpu_suspended (cb c) = true).
  { unfold c. rewrite run_published by (by rewrite Hpc, Hcs).
    fold c. by destruct (pc c). }
  assert (Hsh : shutdown_cpu (cb c) = true).
  { apply run_halting_flag; [by rewrite Hpc|done]. }
  assert (E : arch_suspend_cpu env (cb c)
              = Done (set_suspend_cpu true (cb c)) [] env).
  { rewrite arch_suspend_cpu_write by done. cbn. by rewrite Hlk'. }
  split; [done|]. unfold arch_shutdown_cpu. rewrite E.
  destruct (cb c); cbn in *. by subst.
Qed.

(** *** A call that nobody interferes with *)

(** The result of a call of [x86_handle_events] that no other core writes
    to while it runs, with [suspend_cpu] clear: a signalled INIT makes it
    return -1 waiting for a SIPI; otherwise a core marked for shutdown
    calls [apic_clear] and [vcpu_exit] and halts without returning;
    otherwise it returns the pending vector, or -1 if there is none or
    the core is failed, and the vector is consumed either way. *)
Theorem handle_events_alone_result s :
  control_lock s = false → suspend_cpu s = false →
  let c' := x86_handle_events 24 (in_guest s) in
  (init_signaled s = true →
     pc c' = Guest ∧ returns c' = [-1] ∧
     cb c' = set_flush_vcpu_caches false (x86_enter_wait_for_sipi s)) ∧
  (init_signaled s = false → shutdown_cpu s = true →
     pc c' = H231 ∧ returns c' = [] ∧
     tr c' = [Ev_apic_clear; Ev_vcpu_exit] ∧
     cb c' = set_cpu_suspended true s) ∧
  (init_signaled s = false → shutdown_cpu s = false →
     pc c' = Guest ∧
     returns c' = [if (0 <=? sipi_vector s) && negb (failed s)
                   then sipi_vector s else -1] ∧
     cb c' = set_flush_vcpu_caches false (set_cpu_suspended false
               (if 0 <=? sipi_vector s
                then set_sipi_vector (-1)
                       (if negb (failed s) then set_wait_for_sipi false s
                        else s)
                else s))).
Proof.
  intros Hlk Hsu c'. subst c'.
  destruct s as [lk su cs sh ini wfs vec fl fv]; cbn in Hlk, Hsu; subst.
  cbn [init_signaled shutdown_cpu].
  destruct vec as [|q|q], cs, sh, ini, wfs, fl, fv;
    (split; [|split]); intros; try discriminate;
    vm_compute; repeat split; reflexivity.
Qed.

(** INIT and SIPI, there and back: an INIT sent to a running core sends
    an NMI and makes its next call return -1 with [wait_for_sipi] set; a
    SIPI with vector [v] sent then makes the call after that return [v],
    with [wait_for_sipi], [init_signaled] and the stored vector all back
    to their idle values. *)
Theorem init_sipi_round_trip s v0 v :
  control_lock s = false → wait_for_sipi s = false → suspend_cpu s = false →
  shutdown_cpu s = false → failed s = false → 0 ≤ v →
  x86_send_init_sipi X86_INIT v0 [] s =
    Done (set_init_signaled true s) [Ev_apic_send_nmi_ipi] [] ∧
  let c1 := x86_handle_events 24 (in_guest (set_init_signaled true s)) in
  pc c1 = Guest ∧ returns c1 = [-1] ∧ wait_for_sipi (cb c1) = true ∧
  x86_send_init_sipi X86_SIPI v [] (cb c1) =
    Done (set_sipi_vector v (cb c1)) [Ev_apic_send_nmi_ipi] [] ∧
  let c2 := x86_handle_events 24 (store (set_sipi_vector v) c1) in
  pc c2 = Guest ∧ returns c2 = [-1; v] ∧
  wait_for_sipi (cb c2) = false ∧ init_signaled (cb c2) = false ∧
  sipi_vector (cb c2) = -1.
Proof.
  destruct s as [lk su cs sh ini wfs vec fl fv]; cbn.
  intros -> -> -> -> -> Hv.
  destruct v as [|q|q]; [| |lia];
    destruct cs, ini, fv; vm_compute; repeat split; reflexivity.
Qed.

(** *** Leaving the spin of line 225 *)

(** What the core does next does not depend on the calls it has made. *)
Lemma step_with_history t c :
  x86_handle_events_step (with_history t c) =
  with_history t (x86_handle_events_step c).
Proof.
  destruct c as [p [lk su cs sh ini wfs vec fl fv] v t']. unfold with_history.
  destruct p; cbn; repeat (case_match; cbn); rewrite ?app_assoc; done.
Qed.

Lemma steps_with_history n t c :
  Nat.iter n x86_handle_events_step (with_history t c) =
  with_history t (Nat.iter n x86_handle_events_step c).
Proof.
  induction n as [|n IH]; [done|].
  by rewrite !Nat.iter_succ, IH, step_with_history.
Qed.

Lemma steps_from_history n c :
  Nat.iter n x86_handle_events_step c =
  with_history (tr c) (Nat.iter n x86_handle_events_step (fresh_trace c)).
Proof.
  rewrite <- steps_with_history. f_equal. destruct c. unfold with_history.
  cbn. by rewrite app_nil_r.
Qed.

Lemma returns_with_history t c :
  returns (with_history t c) =
  omap (λ e, match e with Ev_return v => Some v | _ => None end) t ++ returns c.
Proof. unfold returns, with_history. cbn. by rewrite omap_app. Qed.

(** The block and the signals after [arch_park_cpu] has released a core
    from the spin of line 225. *)
Lemma park_run su cs ini wfs vec fl fv v t :
  let s := mk_per_cpu false su cs false ini wfs vec fl fv in
  Nat.iter 24 x86_handle_events_step
    (fresh_trace (store arch_park_cpu (mk_config H225 s v t))) =
  mk_config Guest
    (set_flush_vcpu_caches false (set_cpu_suspended false
       (x86_enter_wait_for_sipi (set_suspend_cpu false
          (if 0 <=? vec
           then set_sipi_vector (-1)
                  (if negb fl then set_wait_for_sipi false s else s)
           else s)))))
    (-1)
    ((if fv then [Ev_vcpu_tlb_flush] else []) ++
     [Ev_vcpu_park; Ev_return (-1)]).
Proof.
  destruct vec as [|q|q], su, cs, ini, wfs, fl, fv; vm_compute; reflexivity.
Qed.

(** [arch_park_cpu] on a core that spins at line 225: the core leaves the
    spin, drops the parking vector together with any vector that was
    pending, and returns -1 after [vcpu_park], waiting for a SIPI with no
    vector stored and [suspend_cpu] and [cpu_suspended] clear. *)
Theorem park_from_wait_loop c :
  pc c = H225 → control_lock (cb c) = false → shutdown_cpu (cb c) = false →
  let c' := Nat.iter 24 x86_handle_events_step (store arch_park_cpu c) in
  pc c' = Guest ∧
  returns c' = returns c ++ [-1] ∧
  tr c' = tr c ++ (if flush_vcpu_caches (cb c) then [Ev_vcpu_tlb_flush] else [])
               ++ [Ev_vcpu_park; Ev_return (-1)] ∧
  cb c' = set_flush_vcpu_caches false (set_cpu_suspended false
            (x86_enter_wait_for_sipi (set_suspend_cpu false
               (if 0 <=? sipi_vector (cb c)
                then set_sipi_vector (-1)
                       (if negb (failed (cb c)) then set_wait_for_sipi false (cb c)
                        else cb c)
                else cb c)))) ∧
  sipi_vector (cb c') < 0.
Proof.
  destruct c as [p [lk su cs sh ini wfs vec fl fv] v t].
  intros Hpc Hlk Hsh c'. cbn in Hpc, Hlk, Hsh. subst p lk sh.
  assert (E : c' = with_history t (Nat.iter 24 x86_handle_events_step
                 (fresh_trace (store arch_park_cpu
                    (mk_config H225
                       (mk_per_cpu false su cs false ini wfs vec fl fv) v t)))))
    by apply steps_from_history.
  rewrite park_run in E. rewrite E. clear E c'.
  unfold with_history, returns. cbn. rewrite !omap_app.
  split; [done|]. split; [by destruct fv|]. split; [done|]. split; [done|].
  destruct (Z.leb_spec 0 vec); [by destruct fl|]. by destruct ini, wfs.
Qed.




End Interleavings.

(* ===================================================================== *)
(** ** Cell creation, destruction and commit as a whole                   *)
(* ===================================================================== *)

Section CellLifecycle.
Context `{collaborators world mem}.
Implicit Types (c : cell) (r : mem) (m : machine world mem).

Ltac tx_open := unfold tx_bind, tx_ret, invoke, notify; cbn -[is_err].

(** Runs a transaction up to the next collaborator call, whose outcome is
    named, and splits on the error test that follows. *)
Ltac tx_call f e w E :=
  destruct f as [e w]; cbn -[is_err]; destruct (is_err e) eqn:E;
  cbn -[is_err].

Ltac not_listed :=
  rewrite ?elem_of_cons, elem_of_nil; intuition discriminate.

(** [arch_cell_create] leaves nothing half-built, for every behaviour of
    the subsystems: it only adds to the call log; when it returns 0 it
    has made the four [_init] calls, no [_exit] call, and set the timer
    address; when it returns an error the cell is unchanged, all [_init]
    calls but the failed one are matched by an [_exit] call, and
    [ioapic_cell_init] is never among them. *)
Theorem arch_cell_create_balance (timer : Z) c m :
  ∃ l, calls (arch_cell_create timer c m).2 = calls m ++ l ∧
       let err := (arch_cell_create timer c m).1.1 in
       let c' := (arch_cell_create timer c m).1.2 in
       (err = 0 ∧ c' = set_pm_timer_address timer c ∧
        count_calls is_init l = 4%nat ∧ count_calls is_exit l = 0%nat) ∨
       (err ≠ 0 ∧ c' = c ∧
        count_calls is_init l = S (count_calls is_exit l) ∧
        C_ioapic_cell_init c ∉ l).
Proof.
  unfold arch_cell_create. tx_open.
  tx_call (vcpu_cell_init c (ext m)) e1 w1 E1.
  { exists [C_vcpu_cell_init c]. split; [done|]. right.
    apply is_err_true in E1. split_and!; try done. not_listed. }
  tx_call (iommu_cell_init c w1) e2 w2 E2.
  { exists [C_vcpu_cell_init c; C_iommu_cell_init c; C_vcpu_cell_exit c].
    rewrite <- !app_assoc. split; [done|]. right.
    apply is_err_true in E2. split_and!; try done. not_listed. }
  tx_call (pci_cell_init c w2) e3 w3 E3.
  { exists [C_vcpu_cell_init c; C_iommu_cell_init c; C_pci_cell_init c;
            C_iommu_cell_exit c; C_vcpu_cell_exit c].
    rewrite <- !app_assoc. split; [done|]. right.
    apply is_err_true in E3. split_and!; try done. not_listed. }
  exists [C_vcpu_cell_init c; C_iommu_cell_init c; C_pci_cell_init c;
          C_ioapic_cell_init c].
  rewrite <- !app_assoc. split; [done|]. by left.
Qed.

(** [arch_cell_destroy] undoes a successful [arch_cell_create] in the
    opposite order: its calls are the [_exit] calls that belong to the
    four [_init] calls of the creation, last created first. *)
Theorem arch_cell_destroy_mirrors_create (timer : Z) c m :
  (arch_cell_create timer c m).1.1 = 0 →
  let c' := (arch_cell_create timer c m).1.2 in
  let m1 := (arch_cell_create timer c m).2 in
  let m2 := (arch_cell_destroy c' m1).2 in
  ∃ l, calls m1 = calls m ++ l ∧ length l = 4%nat ∧
       List.forallb is_init l = true ∧
       calls m2 = calls m1 ++ omap (teardown_for c') (reverse l).
Proof.
  unfold arch_cell_create, arch_cell_destroy. tx_open.
  tx_call (vcpu_cell_init c (ext m)) e1 w1 E1.
  { intros ->. done. }
  tx_call (iommu_cell_init c w1) e2 w2 E2.
  { intros ->. done. }
  tx_call (pci_cell_init c w2) e3 w3 E3.
  { intros ->. done. }
  intros _.
  exists [C_vcpu_cell_init c; C_iommu_cell_init c; C_pci_cell_init c;
          C_ioapic_cell_init c].
  rewrite <- !app_assoc. done.
Qed.

(** *** Commit and the event loop *)

Lemma mark_all_app (l1 l2 : list nat) m :
  mark_all (l1 ++ l2) m = (mark_all l1 ;;; mark_all l2) m.
Proof.
  revert m. induction l1 as [|x l1 IH]; intros m; cbn.
  - done.
  - unfold tx_bind in *. cbn. by rewrite IH.
Qed.

Lemma arch_config_commit_table root_cell current_cpu cell_added_removed m :
  percpu (arch_config_commit root_cell current_cpu cell_added_removed m).2 =
  percpu (mark_all (commit_visits root_cell current_cpu cell_added_removed) m).2.
Proof.
  unfold arch_config_commit, commit_visits. rewrite mark_all_app.
  unfold tx_bind, notify.
  destruct (mark_all _ m) as [[] m1].
  destruct cell_added_removed as [c|]; [case_bool_decide|]; cbn;
    by repeat match goal with |- context [mark_all ?l ?x] =>
                destruct (mark_all l x) as [[] ?] end.
Qed.

Lemma elem_of_commit_visits root_cell current_cpu cell_added_removed cpu :
  cpu ∈ commit_visits root_cell current_cpu cell_added_removed ↔
  cpu ∈ commit_targets root_cell current_cpu cell_added_removed.
Proof.
  unfold commit_visits.
  rewrite elem_of_commit_targets, elem_of_app, elem_of_for_each_cpu_except.
  destruct cell_added_removed as [c|]; [case_bool_decide|];
    rewrite ?elem_of_for_each_cpu_except, ?elem_of_nil; tauto.
Qed.

(** Commit and event loop together: a core that [arch_config_commit]
    marked, and that has the test of line 247 still ahead, calls
    [vcpu_tlb_flush] before [x86_handle_events] next returns on it,
    under every interleaving. *)
Theorem committed_core_flushes {consts : apic_consts}
    root_cell current_cpu cell_added_removed m cpu sched (c : config) :
  cpu ∈ commit_targets root_cell current_cpu cell_added_removed →
  cb c = percpu (arch_config_commit root_cell current_cpu
                   cell_added_removed m).2 cpu →
  before_flush_test (pc c) = true →
  returns (run sched c) ≠ returns c →
  (flushes c < flushes (run sched c))%nat.
Proof.
  intros Hin Hcb Hp Hr.
  assert (Hf : flush_vcpu_caches (cb c) = true).
  { rewrite Hcb, arch_config_commit_table.
    destruct (mark_all_spec
                (commit_visits root_cell current_cpu cell_added_removed) m)
      as (t & E & Ht).
    rewrite E. cbn. rewrite Ht, bool_decide_eq_true_2.
    - by destruct (percpu m cpu).
    - by apply elem_of_commit_visits. }
  assert (H0 : flush_owed c c) by (left; auto).
  destruct (run_flush_owed sched c c H0) as [(E & _)|Hlt]; done.
Qed.

(** A second [arch_config_commit] with the same arguments changes no
    block: the marking is idempotent. *)
Theorem arch_config_commit_idempotent
    root_cell current_cpu cell_added_removed m cpu :
  let m1 := (arch_config_commit root_cell current_cpu cell_added_removed m).2 in
  let m2 := (arch_config_commit root_cell current_cpu cell_added_removed m1).2 in
  percpu m2 cpu = percpu m1 cpu.
Proof.
  intros m1 m2. subst m2. rewrite arch_config_commit_table.
  destruct (mark_all_spec
              (commit_visits root_cell current_cpu cell_added_removed) m1)
    as (t2 & E2 & Ht2).
  rewrite E2. cbn. rewrite Ht2. case_bool_decide as Hin; [|done].
  subst m1. rewrite arch_config_commit_table.
  destruct (mark_all_spec
              (commit_visits root_cell current_cpu cell_added_removed) m)
    as (t1 & E1 & Ht1).
  rewrite E1. cbn. rewrite Ht1, bool_decide_eq_true_2 by done.
  apply set_flush_idemp.
Qed.

End CellLifecycle.


(** ** The theorems on concrete schedules *)

#[local] Existing Instance apic_x86.

(** A block with an INIT signalled and vector 5 pending. *)
Lemma init_preempts_pending_vector_witness :
  let s := set_sipi_vector 5 (set_init_signaled true idle_block) in
  let c1 := x86_handle_events 16 (in_guest s) in
  returns c1 = [-1] ∧ wait_for_sipi (cb c1) = true ∧
  sipi_vector (cb c1) = 5 ∧
  returns (x86_handle_events 24 c1) = [-1; 5].
Proof.
  pose proof (init_preempts_pending_vector
                (set_sipi_vector 5 (set_init_signaled true idle_block))
                eq_refl eq_refl eq_refl ltac:(done)) as W.
  cbv zeta in W. destruct W as (_ & W1 & _ & _ & W2 & W3 & W4).
  destruct (W4 eq_refl eq_refl) as (_ & W5 & _).
  cbv zeta. split; [exact W1|]. split; [exact W2|]. split; [exact W3|].
  exact W5.
Defined.

(** C1, the claim as stated: the pending vector 5 is still in the field
    after the call that honoured the INIT, and the next call returns it. *)
Lemma pending_vector_survives_init :
  let s := set_sipi_vector 5 (set_init_signaled true idle_block) in
  init_signaled s = true ∧ suspend_cpu s = false ∧ 0 ≤ sipi_vector s ∧
  let c1 := x86_handle_events 16 (in_guest s) in
  pc c1 = Guest ∧ returns c1 = [-1] ∧
  sipi_vector (cb c1) ≠ -1 ∧
  returns (x86_handle_events 24 c1) = [-1; 5].
Proof. vm_compute. split_and!; done. Qed.

(** C2, the claim as stated: a suspended core is reset and released; its
    call returns the pseudo vector although [wait_for_sipi] was false at
    every moment. *)
Lemma reset_returns_vector_without_wait :
  returns (run reset_schedule (in_guest idle_block)) = [0x100] ∧
  never_waited reset_schedule (in_guest idle_block) = true.
Proof. vm_compute. done. Qed.

(** INIT, then SIPI with vector 7: the second call returns 7. *)
Lemma returned_vector_has_source_witness :
  returns (run init_sipi_schedule (in_guest idle_block)) = [-1; 7] ∧
  failed idle_block = false ∧
  (sipi_recorded init_sipi_schedule (in_guest idle_block) 7 ∨
   (7 = APIC_BSP_PSEUDO_SIPI ∧ reset_issued init_sipi_schedule)).
Proof.
  split; [reflexivity|].
  apply (returned_vector_has_source init_sipi_schedule (in_guest idle_block) 7);
    [reflexivity|reflexivity|reflexivity| |done].
  change (7 ∈ [-1; 7]). rewrite !elem_of_cons. auto.
Defined.

(** C10, the claim as stated: entered with [cpu_suspended] set and an
    INIT to honour, the call leaves through line 218 and returns with the
    flag still set. *)
Lemma init_exit_keeps_cpu_suspended :
  let s := set_cpu_suspended true (set_init_signaled true idle_block) in
  let c1 := x86_handle_events 16 (in_guest s) in
  pc c1 = Guest ∧ returns c1 = [-1] ∧ cpu_suspended (cb c1) = true.
Proof. vm_compute. done. Qed.

Lemma handle_events_returns_unsuspended_witness :
  let c' := run init_sipi_schedule (in_guest idle_block) in
  pc c' = Guest ∧ cpu_suspended (cb c') = false.
Proof.
  pose proof (handle_events_returns_unsuspended init_sipi_schedule
                (in_guest idle_block) eq_refl eq_refl) as W.
  cbv zeta in W. destruct W as [_ W].
  cbv zeta. split; [reflexivity|]. apply W. reflexivity.
Defined.

(** A core at line 236 holding vector 7, not failed and failed. *)
Lemma wait_exit_takes_pending_vector_witness :
  let s := mk_per_cpu true false true false false true 7 false false in
  let s' := mk_per_cpu true false true false false true 7 true false in
  returns (Nat.iter 16 x86_handle_events_step (mk_config H236 s (-1) [])) = [7] ∧
  Nat.iter 4 x86_handle_events_step (mk_config H236 s' (-1) []) =
    mk_config H245 (mk_per_cpu true false false false false true (-1) true false)
      (-1) [].
Proof.
  cbv zeta. split.
  - pose proof (wait_exit_takes_pending_vector
        (mk_config H236 (mk_per_cpu true false true false false true 7 false false)
           (-1) []) eq_refl ltac:(done)) as W.
    cbv zeta in W. destruct W as [W _].
    destruct (W eq_refl) as [_ W']. destruct (W' eq_refl) as (_ & W'' & _).
    exact W''.
  - pose proof (wait_exit_takes_pending_vector
        (mk_config H236 (mk_per_cpu true false true false false true 7 true false)
           (-1) []) eq_refl ltac:(done)) as W.
    cbv zeta in W. destruct W as [_ W]. destruct (W eq_refl) as [W' _].
    exact W'.
Defined.

(** A core at line 228 with [shutdown_cpu] set, while other cores keep
    writing to its block: after three steps it is halted for good. *)
Lemma shutdown_halts_core_witness :
  let c := mk_config H228 (set_shutdown_cpu true (set_cpu_suspended true idle_block))
             (-1) [] in
  let sched := [A_step; A_remote R_suspend_request; A_step; A_call;
                A_remote R_resume; A_step; A_remote R_reset_vector; A_step] in
  pc (run sched c) = H231 ∧
  tr (run sched c) = [Ev_apic_clear; Ev_vcpu_exit] ∧
  returns (run sched c) = [].
Proof.
  pose proof (shutdown_halts_core [] idle_block
    [A_step; A_remote R_suspend_request; A_step; A_call;
     A_remote R_resume; A_step; A_remote R_reset_vector; A_step]
    (mk_config H228 (set_shutdown_cpu true (set_cpu_suspended true idle_block))
       (-1) [])) as [_ W].
  destruct (W eq_refl eq_refl) as (_ & _ & Wr & Wh).
  destruct (Wh ltac:(cbn; lia)) as [Wpc Wtr].
  cbv zeta. split; [exact Wpc|]. split; [exact Wtr|exact Wr].
Defined.

(** Shutdown of a running core, end to end: the request, the core's way
    into the wait loop, the flag and the release, and the halt. *)
Example shutdown_end_to_end :
  let sched := [A_remote R_suspend_request; A_call] ++ replicate 5 A_step ++
               [A_remote R_shutdown_flag; A_remote R_resume] ++
               replicate 8 A_step in
  let c' := run sched (in_guest idle_block) in
  pc c' = H231 ∧ tr c' = [Ev_apic_clear; Ev_vcpu_exit] ∧
  cpu_suspended (cb c') = true.
Proof. vm_compute. done. Qed.

(* ===================================================================== *)
(** ** Runs of the further properties                                     *)
(* ===================================================================== *)

(** After an INIT, a SIPI and the two calls they cause, the core is back in
    guest mode with its lock free. *)
Lemma lock_released_outside_witness :
  let c' := run init_sipi_schedule (in_guest idle_block) in
  pc c' = Guest ∧ control_lock (cb c') = false.
Proof.
  pose proof (lock_released_outside init_sipi_schedule (in_guest idle_block)
                eq_refl eq_refl) as W.
  cbv zeta in W. destruct W as (_ & W & _).
  cbv zeta. split; [reflexivity|]. apply W. reflexivity.
Defined.

(** A suspended core that is parked and sent an INIT, but not resumed,
    still spins at line 225. *)
Lemma suspended_core_stays_in_wait_witness :
  let c := x86_handle_events_enter (in_guest (set_suspend_cpu true idle_block)) in
  let c' := run suspended_schedule c in
  pc c' = H225 ∧ cpu_suspended (cb c') = true ∧ returns c' = [].
Proof.
  assert (Hs : no_resume suspended_schedule) by (repeat constructor).
  pose proof (suspended_core_stays_in_wait suspended_schedule
                (x86_handle_events_enter
                   (in_guest (set_suspend_cpu true idle_block)))
                Hs eq_refl eq_refl eq_refl) as W.
  cbv zeta in W. destruct W as (_ & Wr & _ & W).
  destruct (W ltac:(cbn; lia)) as (W1 & W2 & _).
  cbv zeta. split; [exact W1|]. split; [exact W2|exact Wr].
Defined.

(** A core shut down by [arch_shutdown_cpu] halts, and a suspend request to
    it returns at once. *)
Lemma halted_core_suspend_returns_witness :
  let c := run shutdown_schedule (in_guest idle_block) in
  pc c = H231 ∧
  arch_suspend_cpu [] (cb c) = Done (set_suspend_cpu true (cb c)) [] [].
Proof.
  pose proof (halted_core_suspend_returns shutdown_schedule
                (in_guest idle_block) [] eq_refl eq_refl eq_refl) as W.
  cbv zeta in W. destruct (W eq_refl) as [W1 _].
  cbv zeta. split; [reflexivity|exact W1].
Defined.

(** A core marked for shutdown that is sent an INIT returns -1 and waits. *)
Lemma marked_core_never_starts_witness :
  let c := in_guest (set_shutdown_cpu true idle_block) in
  let c' := run init_call_schedule c in
  returns c' = [-1] ∧
  ∃ new, returns c' = returns c ++ new ∧ Forall (λ v, v = -1) new ∧
         (new ≠ [] → wait_for_sipi (cb c') = true).
Proof.
  pose proof (marked_core_never_starts init_call_schedule
                (in_guest (set_shutdown_cpu true idle_block))
                eq_refl eq_refl) as W.
  cbv zeta in W. destruct W as (_ & _ & W).
  cbv zeta. split; [reflexivity|exact W].
Defined.

(** An idle core with a flush request flushes during its next call. *)
Lemma pending_flush_honoured_witness :
  let c := in_guest (set_flush_vcpu_caches true idle_block) in
  let c' := run (A_call :: replicate 24 A_step) c in
  returns c' = [-1] ∧ (flushes c < flushes c')%nat.
Proof.
  pose proof (pending_flush_honoured (A_call :: replicate 24 A_step)
                (in_guest (set_flush_vcpu_caches true idle_block))
                eq_refl eq_refl ltac:(vm_compute; discriminate)) as W.
  cbv zeta. split; [reflexivity|exact W].
Defined.

(** The second call of the INIT and SIPI schedule returns vector 7 after
    [apic_clear], not waiting any more. *)
Lemma return_matches_wait_state_witness :
  let c := run init_sipi_schedule (in_guest idle_block) in
  tr c = [Ev_vcpu_park; Ev_return (-1); Ev_apic_clear] ++ [Ev_return 7] ∧
  wait_for_sipi (cb c) = false.
Proof.
  pose proof (return_matches_wait_state init_sipi_schedule (in_guest idle_block)
                [Ev_vcpu_park; Ev_return (-1); Ev_apic_clear] 7
                eq_refl eq_refl ltac:(vm_compute; reflexivity)
                ltac:(vm_compute; reflexivity)) as (_ & _ & W).
  cbv zeta. split; [reflexivity|]. apply W. done.
Defined.

(** An idle core with vector 5 pending returns 5. *)
Lemma handle_events_alone_result_witness :
  returns (x86_handle_events 24 (in_guest (set_sipi_vector 5 idle_block))) = [5].
Proof.
  pose proof (handle_events_alone_result (set_sipi_vector 5 idle_block)
                eq_refl eq_refl) as W.
  cbv zeta in W. destruct W as (_ & _ & W).
  destruct (W eq_refl eq_refl) as (_ & W2 & _). exact W2.
Defined.

(** INIT, then SIPI with vector 7, on an idle core. *)
Lemma init_sipi_round_trip_witness :
  let c1 := x86_handle_events 24 (in_guest (set_init_signaled true idle_block)) in
  returns (x86_handle_events 24 (store (set_sipi_vector 7) c1)) = [-1; 7].
Proof.
  pose proof (init_sipi_round_trip idle_block 0 7 eq_refl eq_refl eq_refl
                eq_refl eq_refl ltac:(done)) as (_ & W).
  cbv zeta in W. destruct W as (_ & _ & _ & _ & _ & W & _). exact W.
Defined.

(** Parking the core that waits with vector 5 pending: the vector is lost. *)
Lemma park_from_wait_loop_witness :
  let c' := Nat.iter 24 x86_handle_events_step (store arch_park_cpu waiting_core) in
  returns c' = [-1] ∧ sipi_vector (cb c') < 0.
Proof.
  pose proof (park_from_wait_loop waiting_core eq_refl eq_refl eq_refl) as W.
  cbv zeta in W. destruct W as (_ & W1 & _ & _ & W2).
  cbv zeta. split; [exact W1|exact W2].
Defined.



(** Creating a cell with all subsystems succeeding, then destroying it. *)
Lemma arch_cell_destroy_mirrors_create_witness :
  let c := cell_of 1 {[2%nat]} in
  let m1 := (arch_cell_create 0x408 c (idle_machine [0; 0; 0])).2 in
  let c' := set_pm_timer_address 0x408 c in
  ∃ l, calls m1 = [] ++ l ∧ length l = 4%nat ∧
       List.forallb is_init l = true ∧
       calls (arch_cell_destroy c' m1).2 =
         calls m1 ++ omap (teardown_for c') (reverse l).
Proof.
  exact (arch_cell_destroy_mirrors_create 0x408 (cell_of 1 {[2%nat]})
           (idle_machine [0; 0; 0]) eq_refl).
Defined.

(** Core 3 of a new cell, marked by a commit from core 0, flushes during
    its next call. *)
Lemma committed_core_flushes_witness :
  let m' := (arch_config_commit (cell_of 0 {[0%nat; 1%nat]}) 0
               (Some (cell_of 1 {[2%nat; 3%nat]})) (idle_machine [])).2 in
  let c := in_guest (percpu m' 3%nat) in
  (flushes c < flushes (run (A_call :: replicate 24 A_step) c))%nat.
Proof.
  cbv zeta.
  apply (committed_core_flushes (cell_of 0 {[0%nat; 1%nat]}) 0%nat
           (Some (cell_of 1 {[2%nat; 3%nat]})) (idle_machine []) 3%nat).
  - apply elem_of_commit_targets. split; [done|]. right. split; [done|].
    apply elem_of_union. right. by apply elem_of_singleton.
  - reflexivity.
  - reflexivity.
  - vm_compute. discriminate.
Defined.
